(** * ppapi: the module/instance dispatch shim (ppapi/cpp/module.cc)

    A shallow embedding of the C++ glue between the browser's C callback
    tables (PPP_Instance, PPP_Printing) and the plugin's C++ object model,
    with the properties the design notes state about it. *)

From Stdlib Require Import ZArith NArith String Ascii List Lia.
From stdpp Require Import gmap strings list.

(** ** C strings *)

Module CString.

(** A [const char*] is modelled by the characters in front of its
    terminator.  The C standard fixes only the sign of [strcmp]'s result;
    it is the sign of the difference of the first two differing characters
    read as [unsigned char], the terminator counting as 0.  The model
    returns -1, 0 or 1. *)
Fixpoint strcmp (s1 s2 : string) : Z :=
  match s1, s2 with
  | EmptyString, EmptyString => 0
  | EmptyString, String _ _ => -1
  | String _ _, EmptyString => 1
  | String c1 r1, String c2 r2 =>
      if Ascii.eqb c1 c2 then strcmp r1 r2
      else if (N_of_ascii c1 <? N_of_ascii c2)%N then -1 else 1
  end%Z.

End CString.

(** ** Data model *)

(** Browser handles.  The typedefs live in ppapi/c/pp_instance.h,
    pp_resource.h and pp_module.h: opaque integer handles. *)
Definition PP_Instance := Z.
Definition PP_Resource := Z.
Definition PP_Module := Z.

(** [enum PP_PrintOutputFormat]: a C enumeration, compared with [==]. *)
Definition PP_PrintOutputFormat := Z.

(** The address of a heap-allocated [pp::Instance] object. *)
Definition addr := positive.

(** [Instance*]: [None] is the null pointer. *)
Definition Instance_ptr := option addr.

(** A pointer to the first element of a C array of [A]: [None] is the null
    pointer, [Some mem] gives the element read at each index.  The length
    travels separately, as in C. *)
Definition c_array (A : Type) := option (N -> A).

(** [const void*] results of the interface lookups: the null pointer, the
    addresses of the two static tables of module.cc, or a pointer handed out
    by the browser. *)
Inductive const_void_ptr :=
| NULL
| addr_instance_interface      (* &instance_interface *)
| addr_printing_interface      (* &printing_interface *)
| browser_ptr (p : positive).

Definition is_null (p : const_void_ptr) : bool :=
  match p with NULL => true | _ => false end.

(** [PPB_GetInterface]: a function pointer supplied by the browser, [None]
    when null. *)
Definition PPB_GetInterface := option (string -> const_void_ptr).

(** [pp::URLLoader(pp_resource)]: the C++ wrapper around a resource handle. *)
Record URLLoader := { URLLoader_pp_resource : PP_Resource }.

(** The data members of [pp::Module].  [current_instances_] is the
    [std::map<PP_Instance, Instance*>]. *)
Record Module_ := {
  pp_module_ : PP_Module;
  get_browser_interface_ : PPB_GetInterface;
  core_ : const_void_ptr;
  current_instances_ : gmap Z Instance_ptr
}.

Definition set_pp_module_ (v : PP_Module) (m : Module_) : Module_ :=
  {| pp_module_ := v;
     get_browser_interface_ := get_browser_interface_ m;
     core_ := core_ m;
     current_instances_ := current_instances_ m |}.

Definition set_get_browser_interface_ (v : PPB_GetInterface) (m : Module_) : Module_ :=
  {| pp_module_ := pp_module_ m;
     get_browser_interface_ := v;
     core_ := core_ m;
     current_instances_ := current_instances_ m |}.

Definition set_core_ (v : const_void_ptr) (m : Module_) : Module_ :=
  {| pp_module_ := pp_module_ m;
     get_browser_interface_ := get_browser_interface_ m;
     core_ := v;
     current_instances_ := current_instances_ m |}.

Definition set_current_instances_ (v : gmap Z Instance_ptr) (m : Module_) : Module_ :=
  {| pp_module_ := pp_module_ m;
     get_browser_interface_ := get_browser_interface_ m;
     core_ := core_ m;
     current_instances_ := v |}.

(** [Module::Module()]: every member null, the map empty. *)
Definition Module__Module : Module_ :=
  {| pp_module_ := 0%Z;
     get_browser_interface_ := None;
     core_ := NULL;
     current_instances_ := ∅ |}.

(** [Module::InstanceForPPInstance] (module.cc, lines 219-224). *)
Definition Module__InstanceForPPInstance (this : Module_) (instance : PP_Instance)
  : Instance_ptr :=
  match (current_instances_ this !! instance : option Instance_ptr) with
  | None => None
  | Some found_second => found_second
  end.

(** [Module::GetBrowserInterface] (lines 215-217).  The call goes through the
    stored function pointer; through a null one it has no defined result
    ([None]). *)
Definition Module__GetBrowserInterface (this : Module_) (interface_name : string)
  : option const_void_ptr :=
  match get_browser_interface_ this with
  | None => None
  | Some browser_fn => Some (browser_fn interface_name)
  end.

(** ** The plugin-side URL loader header (ppapi/proxy/plugin_url_loader.h) *)

(** The header holds no code, only the declaration of one class (lines
    14-20); the declaration is recorded member by member. *)
Inductive access := Public | Private.

Inductive member_kind :=
| StaticMemberFunction
| NonStaticMemberFunction
| DataMember.

Record member_decl := {
  member_access : access;
  member_is : member_kind;
  member_name : string;
  member_result : string;
  member_parameters : list string
}.

Record class_decl := {
  class_namespace : string;
  class_name : string;
  class_members : list member_decl
}.

(** Line 16: [static const PPB_URLLoader_Dev* GetInterface();] under
    [public:]. *)
Definition GetInterface_decl : member_decl :=
  {| member_access := Public;
     member_is := StaticMemberFunction;
     member_name := "GetInterface";
     member_result := "const PPB_URLLoader_Dev*";
     member_parameters := [] |}.

(** [class PluginURLLoader], as declared.  The macro of line 19 is defined
    in native_client/src/include/nacl_macros.h, which is not part of this
    fragment: [NACL_DISALLOW_COPY_AND_ASSIGN] stands for the member
    declarations it expands to, given the class name. *)
Definition PluginURLLoader
    (NACL_DISALLOW_COPY_AND_ASSIGN : string -> list member_decl) : class_decl :=
  {| class_namespace := "ppapi_proxy";
     class_name := "PluginURLLoader";
     class_members :=
       GetInterface_decl :: NACL_DISALLOW_COPY_AND_ASSIGN "PluginURLLoader" |}.

Definition is_member_function (d : member_decl) : bool :=
  match member_is d with
  | StaticMemberFunction | NonStaticMemberFunction => true
  | DataMember => false
  end.

(** The member functions a class declaration names. *)
Definition member_functions (c : class_decl) : list member_decl :=
  List.filter is_member_function (class_members c).

(** ** A concrete plugin *)

(** The inputs the properties below are run on: a plugin that reports the
    two print formats 1 and 2 and whose [PrintBegin] answers 42, a browser
    that knows one interface, not the core one, and a module in which the
    handle 7 is
    registered for the object at address 5.  The plugin's results do not
    depend on the history, whatever its type. *)
Definition demo_format (print_settings : Z) : PP_PrintOutputFormat := print_settings.

Definition demo_formats_mem (index : N) : PP_PrintOutputFormat :=
  if (index =? 0)%N then 1%Z else 2%Z.

Definition demo_CreateInstance {history : Type} (tr : history) : Instance_ptr :=
  Some 9%positive.
Definition demo_QuerySupportedPrintOutputFormats {history : Type} (tr : history)
  : c_array PP_PrintOutputFormat * N := (Some demo_formats_mem, 2%N).
Definition demo_true {history : Type} (tr : history) : bool := true.
Definition demo_GetInstanceObject {history : Type} (tr : history) : Z := 11%Z.
Definition demo_PrintBegin {history : Type} (tr : history) : Z := 42%Z.
Definition demo_PrintPages {history : Type} (tr : history) : PP_Resource := 13%Z.

Definition demo_browser (interface_name : string) : const_void_ptr :=
  if String.eqb interface_name "PPB_Var;0.1" then browser_ptr 3 else NULL.

Definition demo_module : Module_ :=
  set_current_instances_ {[ 7%Z := Some 5%positive ]} Module__Module.

Section Shim.

(** Types and constants of the C API headers that module.cc includes. *)
Variables PP_Var PP_Event PP_Rect PP_PrintSettings PP_PrintPageNumberRange : Type.
(** [print_settings->format]. *)
Variable format : PP_PrintSettings -> PP_PrintOutputFormat.
(** [Var().Detach()]: the PP_Var of a default-constructed (undefined) Var. *)
Variable Var_undefined : PP_Var.
(** [Resource().pp_resource()]: the handle of a default-constructed (null)
    Resource. *)
Variable Resource_null : PP_Resource.
(** The interface-name macros. *)
Variables PPP_INSTANCE_INTERFACE PPP_PRINTING_INTERFACE PPB_CORE_INTERFACE : string.

(** [Module::GetInstanceInterface] (lines 206-213). *)
Definition Module__GetInstanceInterface (interface_name : string) : const_void_ptr :=
  if (CString.strcmp interface_name PPP_INSTANCE_INTERFACE =? 0)%Z
  then addr_instance_interface
  else if (CString.strcmp interface_name PPP_PRINTING_INTERFACE =? 0)%Z
  then addr_printing_interface
  else NULL.

(** *** Calls that leave the shim *)

(** The calls the shim makes into plugin code: the virtual member functions
    of [pp::Module] and [pp::Instance] that a plugin overrides, and the
    destructor run by [delete]. *)
Inductive Call :=
| Call_CreateInstance (instance : PP_Instance)
| Call_Module_Init
| Call_QuerySupportedPrintOutputFormats (format_count_in : N)
| Call_delete (obj : addr)
| Call_Init (obj : addr) (argc : N) (argn argv : c_array string)
| Call_HandleDocumentLoad (obj : addr) (loader : URLLoader)
| Call_HandleEvent (obj : addr) (event : PP_Event)
| Call_GetInstanceObject (obj : addr)
| Call_ViewChanged (obj : addr) (position clip : PP_Rect)
| Call_PrintBegin (obj : addr) (print_settings : PP_PrintSettings)
| Call_PrintPages (obj : addr) (page_ranges : c_array PP_PrintPageNumberRange)
                  (page_range_count : N)
| Call_PrintEnd (obj : addr).

(** The history of a run, oldest event first.  [Called c m] is a call into
    plugin code, with the module object as the callee can see it while it
    runs; [Stored] and [Erased] are the two writes to [current_instances_]
    (lines 47 and 64). *)
Inductive Event :=
| Called (c : Call) (visible : Module_)
| Stored (instance : PP_Instance) (obj : Instance_ptr)
| Erased (instance : PP_Instance).

Definition History := list Event.

(** What the plugin's code returns.  A result may depend on everything that
    happened so far; the last event of the history is the call itself, with
    its arguments. *)
Variable Module__CreateInstance : History -> Instance_ptr.
Variable Module__Init : History -> bool.
(** Returns the array pointer and the final content of [*format_count]; the
    content on entry is in the call event. *)
Variable Module__QuerySupportedPrintOutputFormats :
  History -> c_array PP_PrintOutputFormat * N.
Variable Instance__Init : History -> bool.
Variable Instance__HandleDocumentLoad : History -> bool.
Variable Instance__HandleEvent : History -> bool.
(** The PP_Var held by the returned Var, which [Detach()] hands over. *)
Variable Instance__GetInstanceObject : History -> PP_Var.
Variable Instance__PrintBegin : History -> Z.
(** The handle of the returned Resource. *)
Variable Instance__PrintPages : History -> PP_Resource.

(** The process as the shim sees it: what [Module::Get()] returns ([None]
    for a null pointer, else the module object it points to) and the
    history. *)
Record World := {
  Module__Get : option Module_;
  trace : History
}.

(** Entering plugin code: the call is appended to the history. *)
Definition enter (c : Call) (module_singleton : Module_) (w : World) : World :=
  {| Module__Get := Some module_singleton;
     trace := trace w ++ [Called c module_singleton] |}.

(** A write to [current_instances_] of the singleton. *)
Definition write_registry (e : Event) (module_singleton : Module_) (w : World) : World :=
  {| Module__Get := Some module_singleton;
     trace := trace w ++ [e] |}.

(** *** PPP_Instance implementation *)

(** [Instance_New] (lines 41-51). *)
Definition Instance_New (instance : PP_Instance) (w : World) : bool * World :=
  match Module__Get w with
  | None => (false, w)
  | Some module_singleton =>
      let w1 := enter (Call_CreateInstance instance) module_singleton w in
      let obj := Module__CreateInstance (trace w1) in
      match obj with
      | Some _ =>
          (true,
           write_registry (Stored instance obj)
             (set_current_instances_
                (<[instance := obj]> (current_instances_ module_singleton))
                module_singleton)
             w1)
      | None => (false, w1)
      end
  end.

(** [Instance_Delete] (lines 53-66).  [delete] on a null pointer runs no
    destructor. *)
Definition Instance_Delete (instance : PP_Instance) (w : World) : World :=
  match Module__Get w with
  | None => w
  | Some module_singleton =>
      match (current_instances_ module_singleton !! instance
             : option Instance_ptr) with
      | None => w
      | Some obj =>
          let erased :=
            set_current_instances_
              (delete instance (current_instances_ module_singleton))
              module_singleton in
          let w1 := write_registry (Erased instance) erased w in
          match obj with
          | Some a => enter (Call_delete a) erased w1
          | None => w1
          end
      end
  end.

(** [Instance_Initialize] (lines 68-79). *)
Definition Instance_Initialize (pp_instance : PP_Instance) (argc : N)
    (argn argv : c_array string) (w : World) : bool * World :=
  match Module__Get w with
  | None => (false, w)
  | Some module_singleton =>
      match Module__InstanceForPPInstance module_singleton pp_instance with
      | None => (false, w)
      | Some instance =>
          let w1 := enter (Call_Init instance argc argn argv) module_singleton w in
          (Instance__Init (trace w1), w1)
      end
  end.

(** [Instance_HandleDocumentLoad] (lines 81-90). *)
Definition Instance_HandleDocumentLoad (pp_instance : PP_Instance)
    (pp_url_loader : PP_Resource) (w : World) : bool * World :=
  match Module__Get w with
  | None => (false, w)
  | Some module_singleton =>
      match Module__InstanceForPPInstance module_singleton pp_instance with
      | None => (false, w)
      | Some instance =>
          let w1 :=
            enter (Call_HandleDocumentLoad instance
                     {| URLLoader_pp_resource := pp_url_loader |})
                  module_singleton w in
          (Instance__HandleDocumentLoad (trace w1), w1)
      end
  end.

(** [Instance_HandleEvent] (lines 92-101); [event] is [*event]. *)
Definition Instance_HandleEvent (pp_instance : PP_Instance) (event : PP_Event)
    (w : World) : bool * World :=
  match Module__Get w with
  | None => (false, w)
  | Some module_singleton =>
      match Module__InstanceForPPInstance module_singleton pp_instance with
      | None => (false, w)
      | Some instance =>
          let w1 := enter (Call_HandleEvent instance event) module_singleton w in
          (Instance__HandleEvent (trace w1), w1)
      end
  end.

(** [Instance_GetInstanceObject] (lines 103-111). *)
Definition Instance_GetInstanceObject (pp_instance : PP_Instance) (w : World)
  : PP_Var * World :=
  match Module__Get w with
  | None => (Var_undefined, w)
  | Some module_singleton =>
      match Module__InstanceForPPInstance module_singleton pp_instance with
      | None => (Var_undefined, w)
      | Some instance =>
          let w1 := enter (Call_GetInstanceObject instance) module_singleton w in
          (Instance__GetInstanceObject (trace w1), w1)
      end
  end.

(** [Instance_ViewChanged] (lines 113-123); the arguments are [*position]
    and [*clip]. *)
Definition Instance_ViewChanged (pp_instance : PP_Instance)
    (position clip : PP_Rect) (w : World) : World :=
  match Module__Get w with
  | None => w
  | Some module_singleton =>
      match Module__InstanceForPPInstance module_singleton pp_instance with
      | None => w
      | Some instance =>
          enter (Call_ViewChanged instance position clip) module_singleton w
      end
  end.

(** *** PPP_Printing implementation *)

(** [Printing_QuerySupportedFormats] (lines 137-145).  [format_count_in] is
    the content of [*format_count] on entry; the result is the returned
    pointer with the content of [*format_count] on return. *)
Definition Printing_QuerySupportedFormats (format_count_in : N) (w : World)
  : (c_array PP_PrintOutputFormat * N) * World :=
  match Module__Get w with
  | None => ((None, 0%N), w)
  | Some module_singleton =>
      let w1 :=
        enter (Call_QuerySupportedPrintOutputFormats format_count_in)
              module_singleton w in
      (Module__QuerySupportedPrintOutputFormats (trace w1), w1)
  end.

(** The loop of lines 162-165: does some [formats[index]] with
    [index < format_count] equal the wanted format?  [remaining] is
    [format_count - index]. *)
Fixpoint format_loop (formats : N -> PP_PrintOutputFormat)
    (wanted : PP_PrintOutputFormat) (index : N) (remaining : nat) : bool :=
  match remaining with
  | O => false
  | S remaining' =>
      if (formats index =? wanted)%Z then true
      else format_loop formats wanted (N.succ index) remaining'
  end.

(** [Printing_Begin] (lines 147-167). *)
Definition Printing_Begin (pp_instance : PP_Instance)
    (print_settings : PP_PrintSettings) (w : World) : Z * World :=
  match Module__Get w with
  | None => (0%Z, w)
  | Some module_singleton =>
      match Module__InstanceForPPInstance module_singleton pp_instance with
      | None => (0%Z, w)
      | Some instance =>
          let w1 :=
            enter (Call_QuerySupportedPrintOutputFormats 0) module_singleton w in
          let '(formats, format_count) :=
            Module__QuerySupportedPrintOutputFormats (trace w1) in
          match formats with
          | None => (0%Z, w1)
          | Some formats_mem =>
              if format_loop formats_mem (format print_settings) 0
                   (N.to_nat format_count)
              then
                let w2 :=
                  enter (Call_PrintBegin instance print_settings)
                        module_singleton w1 in
                (Instance__PrintBegin (trace w2), w2)
              else (0%Z, w1)
          end
      end
  end.

(** [Printing_PrintPages] (lines 169-179). *)
Definition Printing_PrintPages (pp_instance : PP_Instance)
    (page_ranges : c_array PP_PrintPageNumberRange) (page_range_count : N)
    (w : World) : PP_Resource * World :=
  match Module__Get w with
  | None => (Resource_null, w)
  | Some module_singleton =>
      match Module__InstanceForPPInstance module_singleton pp_instance with
      | None => (Resource_null, w)
      | Some instance =>
          let w1 :=
            enter (Call_PrintPages instance page_ranges page_range_count)
                  module_singleton w in
          (Instance__PrintPages (trace w1), w1)
      end
  end.

(** [Printing_End] (lines 181-189). *)
Definition Printing_End (pp_instance : PP_Instance) (w : World) : World :=
  match Module__Get w with
  | None => w
  | Some module_singleton =>
      match Module__InstanceForPPInstance module_singleton pp_instance with
      | None => w
      | Some instance => enter (Call_PrintEnd instance) module_singleton w
      end
  end.

(** *** Module *)

(** [Module::InternalInit] (lines 226-236), run on the module [this] with
    the history [tr].  The result is the returned bool, the module
    afterwards and the history afterwards; [None] when the call goes
    through a null [get_browser_interface]. *)
Definition Module__InternalInit (this : Module_) (tr : History)
    (mod_ : PP_Module) (get_browser_interface : PPB_GetInterface)
  : option (bool * Module_ * History) :=
  let this1 := set_pp_module_ mod_ this in
  let this2 := set_get_browser_interface_ get_browser_interface this1 in
  match Module__GetBrowserInterface this2 PPB_CORE_INTERFACE with
  | None => None
  | Some core =>
      let this3 := set_core_ core this2 in
      if is_null (core_ this3) then Some (false, this3, tr)
      else
        let tr1 := tr ++ [Called Call_Module_Init this3] in
        Some (Module__Init tr1, this3, tr1)
  end.

(** *** The browser's use of the two tables *)

(** One invocation by the browser of a slot of [instance_interface]
    (lines 125-133) or [printing_interface] (lines 191-196). *)
Inductive Callback :=
| CB_Instance_New (instance : PP_Instance)
| CB_Instance_Delete (instance : PP_Instance)
| CB_Instance_Initialize (pp_instance : PP_Instance) (argc : N)
                         (argn argv : c_array string)
| CB_Instance_HandleDocumentLoad (pp_instance : PP_Instance)
                                 (pp_url_loader : PP_Resource)
| CB_Instance_HandleEvent (pp_instance : PP_Instance) (event : PP_Event)
| CB_Instance_GetInstanceObject (pp_instance : PP_Instance)
| CB_Instance_ViewChanged (pp_instance : PP_Instance) (position clip : PP_Rect)
| CB_Printing_QuerySupportedFormats (format_count_in : N)
| CB_Printing_Begin (pp_instance : PP_Instance) (print_settings : PP_PrintSettings)
| CB_Printing_PrintPages (pp_instance : PP_Instance)
                         (page_ranges : c_array PP_PrintPageNumberRange)
                         (page_range_count : N)
| CB_Printing_End (pp_instance : PP_Instance).

(** The world after one invocation (the browser keeps the result). *)
Definition invoke (cb : Callback) (w : World) : World :=
  match cb with
  | CB_Instance_New i => snd (Instance_New i w)
  | CB_Instance_Delete i => Instance_Delete i w
  | CB_Instance_Initialize i argc argn argv =>
      snd (Instance_Initialize i argc argn argv w)
  | CB_Instance_HandleDocumentLoad i r => snd (Instance_HandleDocumentLoad i r w)
  | CB_Instance_HandleEvent i e => snd (Instance_HandleEvent i e w)
  | CB_Instance_GetInstanceObject i => snd (Instance_GetInstanceObject i w)
  | CB_Instance_ViewChanged i p c => Instance_ViewChanged i p c w
  | CB_Printing_QuerySupportedFormats n => snd (Printing_QuerySupportedFormats n w)
  | CB_Printing_Begin i s => snd (Printing_Begin i s w)
  | CB_Printing_PrintPages i r n => snd (Printing_PrintPages i r n w)
  | CB_Printing_End i => Printing_End i w
  end.

(** A sequence of invocations, first to last. *)
Definition run (cbs : list Callback) (w : World) : World :=
  fold_left (fun acc cb => invoke cb acc) cbs w.

(** A process at the start of its history, with the given singleton. *)
Definition starting_world (singleton : option Module_) : World :=
  {| Module__Get := singleton; trace := [] |}.

(** A process whose module object has just been constructed. *)
Definition fresh_world : World := starting_world (Some Module__Module).

(** *** Reference notions the properties are stated with *)

(** Reads a history from its newest event back: the object most recently
    stored under [instance] and not since removed, null when there is none. *)
Fixpoint newest_entry (newest_first : list Event) (instance : PP_Instance)
  : Instance_ptr :=
  match newest_first with
  | [] => None
  | Stored i obj :: older =>
      if bool_decide (i = instance) then obj else newest_entry older instance
  | Erased i :: older =>
      if bool_decide (i = instance) then None else newest_entry older instance
  | Called _ _ :: older => newest_entry older instance
  end.

Definition most_recently_stored (tr : History) (instance : PP_Instance)
  : Instance_ptr :=
  newest_entry (rev tr) instance.

(** Pass-through forwarding of a value-returning call: the one call [c] is
    made on behalf of the singleton, the callee's result is the result, and
    nothing else changes. *)
Definition forwarded {R : Type} (c : Call) (callee : History -> R)
    (module_singleton : Module_) (w : World) : R * World :=
  let w1 := enter c module_singleton w in (callee (trace w1), w1).

(** Is the event a call of [PrintBegin]? *)
Definition is_PrintBegin (e : Event) : bool :=
  match e with
  | Called (Call_PrintBegin _ _) _ => true
  | _ => false
  end.

(** The formats the module reports in answer to [Printing_Begin]'s query:
    the first [format_count] elements of the returned array. *)
Definition format_reported (answer : c_array PP_PrintOutputFormat * N)
    (wanted : PP_PrintOutputFormat) : Prop :=
  exists formats_mem index,
    fst answer = Some formats_mem /\ (index < snd answer)%N /\
    formats_mem index = wanted.

(** The events a callback added to the history of [w]. *)
Definition events_since (w w' : World) : list Event :=
  drop (length (trace w)) (trace w').

(** The registry of a world agrees with its history: every handle has an
    entry exactly when the history has an object stored under it and not
    since removed, and the entry is that object. *)
Definition registry_matches_history (w : World) : Prop :=
  exists m,
    Module__Get w = Some m /\
    forall instance,
      (current_instances_ m !! instance : option Instance_ptr)
      = match most_recently_stored (trace w) instance with
        | Some a => Some (Some a)
        | None => None
        end.

(** *** Notions for the life cycle of instance objects *)

(** The run of a destructor. *)
Definition is_destroy (e : Event) : bool :=
  match e with
  | Called (Call_delete _) _ => true
  | _ => false
  end.

Definition is_store (e : Event) : bool :=
  match e with
  | Stored _ _ => true
  | _ => false
  end.

Definition is_erase (e : Event) : bool :=
  match e with
  | Erased _ => true
  | _ => false
  end.

(** A call into plugin code other than a destructor. *)
Definition is_plain_call (e : Event) : bool :=
  match e with
  | Called (Call_delete _) _ => false
  | Called _ _ => true
  | _ => false
  end.

Definition count_events (p : Event -> bool) (tr : History) : nat :=
  length (List.filter p tr).

(** The handle a callback is invoked with; the format query has none. *)
Definition callback_handle (cb : Callback) : option PP_Instance :=
  match cb with
  | CB_Instance_New i
  | CB_Instance_Delete i
  | CB_Instance_Initialize i _ _ _
  | CB_Instance_HandleDocumentLoad i _
  | CB_Instance_HandleEvent i _
  | CB_Instance_GetInstanceObject i
  | CB_Instance_ViewChanged i _ _
  | CB_Printing_Begin i _
  | CB_Printing_PrintPages i _ _
  | CB_Printing_End i => Some i
  | CB_Printing_QuerySupportedFormats _ => None
  end.

(** The two callbacks whose code assigns to [current_instances_]. *)
Definition writes_registry (cb : Callback) : bool :=
  match cb with
  | CB_Instance_New _ | CB_Instance_Delete _ => true
  | _ => false
  end.

(** The three shapes of one callback's effect on a module [m]: only calls
    into plugin code, none of them a destructor, with the module left alone;
    a successful [Instance_New]; an [Instance_Delete] of a handle that has an
    entry.  [added] are the events and [m'] is the module afterwards. *)
Definition step_shape (cb : Callback) (m : Module_) (added : list Event)
    (m' : Module_) : Prop :=
  (forallb is_plain_call added = true /\ m' = m) \/
  (exists i a,
     cb = CB_Instance_New i /\
     added = [Called (Call_CreateInstance i) m; Stored i (Some a)] /\
     m' = set_current_instances_ (<[i := Some a]> (current_instances_ m)) m) \/
  (exists i obj,
     cb = CB_Instance_Delete i /\
     (current_instances_ m !! i : option Instance_ptr) = Some obj /\
     m' = set_current_instances_ (delete i (current_instances_ m)) m /\
     added = Erased i ::
             match obj with
             | Some a => [Called (Call_delete a) m']
             | None => []
             end).

(** The bookkeeping of a world: no entry of the map holds a null pointer,
    every erasure was followed by a destructor run, and the objects erased
    plus the objects still in the map are no more than the objects stored. *)
Definition lifecycle_accounts (w : World) : Prop :=
  exists m,
    Module__Get w = Some m /\
    (forall h, (current_instances_ m !! h : option Instance_ptr) <> Some None) /\
    count_events is_destroy (trace w) = count_events is_erase (trace w) /\
    count_events is_erase (trace w) + size (current_instances_ m)
    <= count_events is_store (trace w).

(** Every destructor run in the history comes right after the erasure of a
    handle; the object destroyed is the one most recently stored under that
    handle in the history before the erasure, so its store is an earlier
    event; and the destructor ran while the module had no entry for the
    handle. *)
Definition destroyed_were_stored (tr : History) : Prop :=
  forall n a visible,
    tr !! n = Some (Called (Call_delete a) visible) ->
    exists h p k,
      n = S p /\
      tr !! p = Some (Erased h) /\
      most_recently_stored (take p tr) h = Some a /\
      k < p /\
      tr !! k = Some (Stored h (Some a)) /\
      Module__InstanceForPPInstance visible h = None.

(** *** The binding of a handle, read off the callbacks *)

(** The object a call of [Instance_New] in the world [w] has to register: what
    the plugin's [CreateInstance] returns in that call. *)
Definition created_by_New (instance : PP_Instance) (w : World) : Instance_ptr :=
  match Module__Get w with
  | None => None
  | Some module_singleton =>
      Module__CreateInstance
        (trace (enter (Call_CreateInstance instance) module_singleton w))
  end.

(** The object bound to [instance] after the browser invoked [cb] in the
    world [w], given the object [bound] before: an [Instance_New] of the
    handle that returned true binds it to the object created in that call,
    an [Instance_Delete] of the handle removes the binding, and no other
    invocation changes it. *)
Definition rebind (cb : Callback) (w : World) (instance : PP_Instance)
    (bound : Instance_ptr) : Instance_ptr :=
  match cb with
  | CB_Instance_New i =>
      if bool_decide (i = instance) && fst (Instance_New i w)
      then created_by_New i w
      else bound
  | CB_Instance_Delete i =>
      if bool_decide (i = instance) then None else bound
  | _ => bound
  end.

(** The object bound to [instance] after the invocations [cbs], first to
    last, starting in the world [w] with the binding [bound]: the object of
    the last successful [Instance_New] of the handle, unless an
    [Instance_Delete] of the handle came after it. *)
Fixpoint binding_after (cbs : list Callback) (w : World)
    (instance : PP_Instance) (bound : Instance_ptr) : Instance_ptr :=
  match cbs with
  | [] => bound
  | cb :: rest =>
      binding_after rest (invoke cb w) instance (rebind cb w instance bound)
  end.

(** ** Properties *)

(** *** Facts about [strcmp] *)

Lemma strcmp_refl (s : string) : CString.strcmp s s = 0%Z.
Proof.
  induction s as [|c r IH]; simpl; [reflexivity|].
  now rewrite Ascii.eqb_refl.
Qed.

Lemma strcmp_zero_eq (s1 s2 : string) : CString.strcmp s1 s2 = 0%Z -> s1 = s2.
Proof.
  revert s2; induction s1 as [|c1 r1 IH]; intros [|c2 r2]; simpl;
    try discriminate; [reflexivity|].
  destruct (Ascii.eqb c1 c2) eqn:E.
  - apply Ascii.eqb_eq in E. intros H. f_equal; [exact E | now apply IH].
  - destruct (N_of_ascii c1 <? N_of_ascii c2)%N; discriminate.
Qed.

Lemma strcmp_zero_iff (s1 s2 : string) : CString.strcmp s1 s2 = 0%Z <-> s1 = s2.
Proof.
  split; [apply strcmp_zero_eq | intros ->; apply strcmp_refl].
Qed.

Lemma strcmp_eqb (s1 s2 : string) :
  (CString.strcmp s1 s2 =? 0)%Z = bool_decide (s1 = s2).
Proof.
  destruct (decide (s1 = s2)) as [->|Hne].
  - rewrite strcmp_refl. now rewrite bool_decide_eq_true_2.
  - rewrite bool_decide_eq_false_2 by assumption.
    apply Z.eqb_neq. intros H. now apply Hne, strcmp_zero_eq.
Qed.

(** *** Name-based interface lookup *)

(** C1.  [Module::GetInstanceInterface] is a string-compare dispatch: with
    the two interface names distinct, every name equal to
    PPP_INSTANCE_INTERFACE yields the address of the static PPP_Instance
    table, every name equal to PPP_PRINTING_INTERFACE the address of the
    static PPP_Printing table, and every other name the null pointer. *)
Theorem GetInstanceInterface_dispatch
    (names_differ : PPP_INSTANCE_INTERFACE <> PPP_PRINTING_INTERFACE)
    (interface_name : string) :
  (interface_name = PPP_INSTANCE_INTERFACE ->
   Module__GetInstanceInterface interface_name = addr_instance_interface) /\
  (interface_name = PPP_PRINTING_INTERFACE ->
   Module__GetInstanceInterface interface_name = addr_printing_interface) /\
  (interface_name <> PPP_INSTANCE_INTERFACE ->
   interface_name <> PPP_PRINTING_INTERFACE ->
   Module__GetInstanceInterface interface_name = NULL).
Proof.
  unfold Module__GetInstanceInterface. rewrite !strcmp_eqb.
  repeat split.
  - intros ->. now rewrite bool_decide_eq_true_2.
  - intros ->. rewrite bool_decide_eq_false_2 by congruence.
    now rewrite bool_decide_eq_true_2.
  - intros Hi Hp. now rewrite !bool_decide_eq_false_2.
Qed.

(** C6.  [Module::GetBrowserInterface] hands the name to the stored browser
    function and returns what that function returns, for every name. *)
Theorem GetBrowserInterface_pass_through (this : Module_)
    (browser_fn : string -> const_void_ptr) (interface_name : string) :
  get_browser_interface_ this = Some browser_fn ->
  Module__GetBrowserInterface this interface_name
  = Some (browser_fn interface_name).
Proof.
  intros Hfn. unfold Module__GetBrowserInterface. now rewrite Hfn.
Qed.

(** C10.  When the browser has no PPB_CORE_INTERFACE,
    [Module::InternalInit] returns false and leaves the history as it was (no
    call of [Init()]); the module it leaves behind nevertheless holds the two
    arguments in [pp_module_] and [get_browser_interface_]. *)
Theorem InternalInit_without_core (this : Module_) (tr : History)
    (mod_ : PP_Module) (browser_fn : string -> const_void_ptr) :
  browser_fn PPB_CORE_INTERFACE = NULL ->
  exists this',
    Module__InternalInit this tr mod_ (Some browser_fn) = Some (false, this', tr) /\
    pp_module_ this' = mod_ /\
    get_browser_interface_ this' = Some browser_fn /\
    core_ this' = NULL /\
    current_instances_ this' = current_instances_ this.
Proof.
  intros Hcore. unfold Module__InternalInit, Module__GetBrowserInterface.
  cbn [get_browser_interface_ set_get_browser_interface_ set_core_ core_].
  rewrite Hcore. cbn [is_null].
  eexists. split; [reflexivity|]. now cbn.
Qed.

(** With the core interface present, [Module::InternalInit] goes on to the
    plugin's [Init()] and returns its result. *)
Lemma InternalInit_with_core (this : Module_) (tr : History)
    (mod_ : PP_Module) (browser_fn : string -> const_void_ptr) :
  browser_fn PPB_CORE_INTERFACE <> NULL ->
  exists this',
    Module__InternalInit this tr mod_ (Some browser_fn)
    = Some (Module__Init (tr ++ [Called Call_Module_Init this']), this',
            tr ++ [Called Call_Module_Init this']) /\
    core_ this' = browser_fn PPB_CORE_INTERFACE.
Proof.
  intros Hcore. unfold Module__InternalInit, Module__GetBrowserInterface.
  cbn [get_browser_interface_ set_get_browser_interface_ set_core_ core_].
  destruct (browser_fn PPB_CORE_INTERFACE) eqn:Hfn; [congruence| | |];
    cbn [is_null]; eexists; (split; [reflexivity|]); reflexivity.
Qed.

(** *** The registry *)

Lemma InstanceForPPInstance_insert (m : Module_) (i j : PP_Instance)
    (obj : Instance_ptr) :
  Module__InstanceForPPInstance
    (set_current_instances_ (<[i := obj]> (current_instances_ m)) m) j
  = if bool_decide (i = j) then obj else Module__InstanceForPPInstance m j.
Proof.
  unfold Module__InstanceForPPInstance; cbn.
  case_bool_decide as Hij.
  - subst j. now rewrite lookup_insert_eq.
  - now rewrite lookup_insert_ne.
Qed.

Lemma InstanceForPPInstance_delete (m : Module_) (i j : PP_Instance) :
  Module__InstanceForPPInstance
    (set_current_instances_ (delete i (current_instances_ m)) m) j
  = if bool_decide (i = j) then None else Module__InstanceForPPInstance m j.
Proof.
  unfold Module__InstanceForPPInstance; cbn.
  case_bool_decide as Hij.
  - subst j. now rewrite lookup_delete_eq.
  - now rewrite lookup_delete_ne.
Qed.

(** C8.  [Instance_New] returns true exactly when [Module::Get()] is not
    null and [CreateInstance] returns an object; in that case the map
    afterwards is the old map with the handle bound to that object; and when
    it returns false the module, its map included, is as before. *)
Theorem Instance_New_atomic (instance : PP_Instance) (w : World) :
  (fst (Instance_New instance w) = true <->
   exists m a,
     Module__Get w = Some m /\
     Module__CreateInstance (trace (enter (Call_CreateInstance instance) m w))
     = Some a) /\
  (forall m a,
     Module__Get w = Some m ->
     Module__CreateInstance (trace (enter (Call_CreateInstance instance) m w))
     = Some a ->
     exists m',
       Module__Get (snd (Instance_New instance w)) = Some m' /\
       current_instances_ m' = <[instance := Some a]> (current_instances_ m) /\
       Module__InstanceForPPInstance m' instance = Some a) /\
  (fst (Instance_New instance w) = false ->
   Module__Get (snd (Instance_New instance w)) = Module__Get w).
Proof.
  unfold Instance_New.
  destruct (Module__Get w) as [m|] eqn:Hget.
  - destruct (Module__CreateInstance
                (trace (enter (Call_CreateInstance instance) m w)))
      as [a|] eqn:Hnew; cbn [fst snd].
    + split; [|split].
      * split; [intros _; exists m, a; auto | reflexivity].
      * intros m0 a0 [= <-] Hc. rewrite Hnew in Hc. injection Hc as <-.
        eexists. split; [reflexivity|].
        split; [reflexivity|].
        rewrite InstanceForPPInstance_insert.
        now rewrite bool_decide_eq_true_2.
      * discriminate.
    + split; [|split].
      * split; [discriminate|].
        intros (m0 & a0 & [= <-] & Hc). congruence.
      * intros m0 a0 [= <-] Hc. congruence.
      * reflexivity.
  - cbn [fst snd]. split; [|split].
    + split; [discriminate|]. intros (m0 & a0 & Hm & _). discriminate.
    + intros m0 a0 Hm. discriminate.
    + now intros _.
Qed.

(** *** Brokering through the singleton *)

(** C5.  With [Module::Get()] null, every callback of the PPP_Instance and
    PPP_Printing tables leaves the world as it was (no call into plugin code,
    no write to the map) and returns its failure value: false, 0, the null
    resource, the null array with [*format_count] set to 0, the undefined
    Var. *)
Theorem callbacks_without_module (w : World) :
  Module__Get w = None ->
  (forall instance, Instance_New instance w = (false, w)) /\
  (forall instance, Instance_Delete instance w = w) /\
  (forall pp_instance argc argn argv,
     Instance_Initialize pp_instance argc argn argv w = (false, w)) /\
  (forall pp_instance pp_url_loader,
     Instance_HandleDocumentLoad pp_instance pp_url_loader w = (false, w)) /\
  (forall pp_instance event,
     Instance_HandleEvent pp_instance event w = (false, w)) /\
  (forall pp_instance,
     Instance_GetInstanceObject pp_instance w = (Var_undefined, w)) /\
  (forall pp_instance position clip,
     Instance_ViewChanged pp_instance position clip w = w) /\
  (forall format_count_in,
     Printing_QuerySupportedFormats format_count_in w = ((None, 0%N), w)) /\
  (forall pp_instance print_settings,
     Printing_Begin pp_instance print_settings w = (0%Z, w)) /\
  (forall pp_instance page_ranges page_range_count,
     Printing_PrintPages pp_instance page_ranges page_range_count w
     = (Resource_null, w)) /\
  (forall pp_instance, Printing_End pp_instance w = w).
Proof.
  intros Hget.
  unfold Instance_New, Instance_Delete, Instance_Initialize,
    Instance_HandleDocumentLoad, Instance_HandleEvent,
    Instance_GetInstanceObject, Instance_ViewChanged,
    Printing_QuerySupportedFormats, Printing_Begin, Printing_PrintPages,
    Printing_End.
  rewrite Hget. repeat split.
Qed.

(** *** Forwarding to the instance object *)

Lemma events_since_app (w w' : World) (added : list Event) :
  trace w' = trace w ++ added -> events_since w w' = added.
Proof.
  intros Htr. unfold events_since. rewrite Htr. apply drop_app_length.
Qed.

Lemma events_since_enter (c : Call) (m : Module_) (w : World) :
  events_since w (enter c m w) = [Called c m].
Proof.
  unfold events_since, enter; cbn [trace]. now rewrite drop_app_length.
Qed.

Lemma events_since_enter2 (c1 c2 : Call) (m1 m2 : Module_) (w : World) :
  events_since w (enter c2 m2 (enter c1 m1 w)) = [Called c1 m1; Called c2 m2].
Proof.
  unfold events_since, enter; cbn [trace].
  rewrite <- app_assoc. now rewrite drop_app_length.
Qed.

(** The loop finds the wanted format exactly when it is one of the
    [remaining] elements from [index] on. *)
Lemma format_loop_true (formats : N -> PP_PrintOutputFormat)
    (wanted : PP_PrintOutputFormat) (remaining : nat) (index : N) :
  format_loop formats wanted index remaining = true <->
  exists i, (index <= i < index + N.of_nat remaining)%N /\ formats i = wanted.
Proof.
  revert index; induction remaining as [|r IH]; intros index.
  - cbn. split; [discriminate|]. intros (i & Hi & _). lia.
  - cbn [format_loop]. destruct (Z.eqb_spec (formats index) wanted) as [Heq|Hne].
    + split; [|reflexivity]. intros _. exists index. split; [lia|exact Heq].
    + rewrite IH. split.
      * intros (i & Hi & Hf). exists i. split; [lia|exact Hf].
      * intros (i & Hi & Hf). exists i. split; [|exact Hf].
        assert (i <> index) by congruence. lia.
Qed.

Lemma format_loop_reported (answer : c_array PP_PrintOutputFormat * N)
    (formats_mem : N -> PP_PrintOutputFormat) (wanted : PP_PrintOutputFormat) :
  fst answer = Some formats_mem ->
  format_loop formats_mem wanted 0 (N.to_nat (snd answer)) = true <->
  format_reported answer wanted.
Proof.
  intros Hmem. rewrite format_loop_true. unfold format_reported. split.
  - intros (i & Hi & Hf). exists formats_mem, i. repeat split; [assumption|lia|assumption].
  - intros (mem & i & Hm & Hi & Hf). rewrite Hmem in Hm. injection Hm as <-.
    exists i. split; [lia|exact Hf].
Qed.

(** [Printing_Begin] on a registered handle whose format the module
    reports: the query, then the forwarded [PrintBegin]. *)
Lemma Printing_Begin_reported (w : World) (m : Module_)
    (pp_instance : PP_Instance) (a : addr) (print_settings : PP_PrintSettings) :
  Module__Get w = Some m ->
  Module__InstanceForPPInstance m pp_instance = Some a ->
  format_reported
    (Module__QuerySupportedPrintOutputFormats
       (trace (enter (Call_QuerySupportedPrintOutputFormats 0) m w)))
    (format print_settings) ->
  Printing_Begin pp_instance print_settings w
  = forwarded (Call_PrintBegin a print_settings) Instance__PrintBegin m
      (enter (Call_QuerySupportedPrintOutputFormats 0) m w).
Proof.
  intros Hget Hfound Hrep. unfold Printing_Begin. rewrite Hget, Hfound.
  destruct (Module__QuerySupportedPrintOutputFormats _) as [formats n] eqn:Hq.
  destruct formats as [mem|].
  - assert (Hloop : format_loop mem (format print_settings) 0 (N.to_nat n) = true)
      by (apply (format_loop_reported (Some mem, n) mem); [reflexivity | exact Hrep]).
    now rewrite Hloop.
  - destruct Hrep as (mem & i & Hm & _). discriminate.
Qed.

(** [Printing_Begin] on a registered handle whose format the module does not
    report: the query only, and the result 0. *)
Lemma Printing_Begin_not_reported (w : World) (m : Module_)
    (pp_instance : PP_Instance) (a : addr) (print_settings : PP_PrintSettings) :
  Module__Get w = Some m ->
  Module__InstanceForPPInstance m pp_instance = Some a ->
  ~ format_reported
      (Module__QuerySupportedPrintOutputFormats
         (trace (enter (Call_QuerySupportedPrintOutputFormats 0) m w)))
      (format print_settings) ->
  Printing_Begin pp_instance print_settings w
  = (0%Z, enter (Call_QuerySupportedPrintOutputFormats 0) m w).
Proof.
  intros Hget Hfound Hrep. unfold Printing_Begin. rewrite Hget, Hfound.
  destruct (Module__QuerySupportedPrintOutputFormats _) as [formats n] eqn:Hq.
  destruct formats as [mem|]; [|reflexivity].
  destruct (format_loop mem (format print_settings) 0 (N.to_nat n)) eqn:Hloop;
    [|reflexivity].
  exfalso. apply Hrep.
  now apply (format_loop_reported (Some mem, n) mem).
Qed.

(** C2, as amended.  On a handle registered with a non-null singleton, the
    shims [Instance_Initialize], [Instance_HandleDocumentLoad],
    [Instance_HandleEvent], [Instance_GetInstanceObject],
    [Instance_ViewChanged], [Printing_PrintPages] and [Printing_End] make
    exactly the corresponding call on the instance object and return its
    result unchanged.  [Printing_Begin] first queries the module's supported
    formats: it forwards to [PrintBegin] when the requested format is
    reported, and otherwise returns 0 after the query alone. *)
Theorem registered_callbacks_forward (w : World) (m : Module_)
    (pp_instance : PP_Instance) (a : addr) :
  Module__Get w = Some m ->
  Module__InstanceForPPInstance m pp_instance = Some a ->
  (forall argc argn argv,
     Instance_Initialize pp_instance argc argn argv w
     = forwarded (Call_Init a argc argn argv) Instance__Init m w) /\
  (forall pp_url_loader,
     Instance_HandleDocumentLoad pp_instance pp_url_loader w
     = forwarded
         (Call_HandleDocumentLoad a {| URLLoader_pp_resource := pp_url_loader |})
         Instance__HandleDocumentLoad m w) /\
  (forall event,
     Instance_HandleEvent pp_instance event w
     = forwarded (Call_HandleEvent a event) Instance__HandleEvent m w) /\
  Instance_GetInstanceObject pp_instance w
  = forwarded (Call_GetInstanceObject a) Instance__GetInstanceObject m w /\
  (forall position clip,
     Instance_ViewChanged pp_instance position clip w
     = enter (Call_ViewChanged a position clip) m w) /\
  (forall page_ranges page_range_count,
     Printing_PrintPages pp_instance page_ranges page_range_count w
     = forwarded (Call_PrintPages a page_ranges page_range_count)
         Instance__PrintPages m w) /\
  Printing_End pp_instance w = enter (Call_PrintEnd a) m w /\
  (forall print_settings,
     let w1 := enter (Call_QuerySupportedPrintOutputFormats 0) m w in
     let answer := Module__QuerySupportedPrintOutputFormats (trace w1) in
     (format_reported answer (format print_settings) ->
      Printing_Begin pp_instance print_settings w
      = forwarded (Call_PrintBegin a print_settings) Instance__PrintBegin m w1) /\
     (~ format_reported answer (format print_settings) ->
      Printing_Begin pp_instance print_settings w = (0%Z, w1))).
Proof.
  intros Hget Hfound.
  unfold Instance_Initialize, Instance_HandleDocumentLoad, Instance_HandleEvent,
    Instance_GetInstanceObject, Instance_ViewChanged, Printing_PrintPages,
    Printing_End, forwarded.
  rewrite Hget, Hfound.
  repeat (split; [reflexivity || (intros; reflexivity)|]).
  intros print_settings. cbv zeta. split.
  - now apply (Printing_Begin_reported w m pp_instance a).
  - now apply (Printing_Begin_not_reported w m pp_instance a).
Qed.

(** C9.  On a registered handle [Printing_Begin] calls the instance's
    [PrintBegin] exactly when [print_settings->format] is among the formats
    the module reports, and then returns its result; when the format is
    absent, or the formats array is null, it returns 0 and makes no call of
    [PrintBegin]. *)
Theorem Printing_Begin_filters_by_format (w : World) (m : Module_)
    (pp_instance : PP_Instance) (a : addr) (print_settings : PP_PrintSettings) :
  Module__Get w = Some m ->
  Module__InstanceForPPInstance m pp_instance = Some a ->
  let w1 := enter (Call_QuerySupportedPrintOutputFormats 0) m w in
  let answer := Module__QuerySupportedPrintOutputFormats (trace w1) in
  let outcome := Printing_Begin pp_instance print_settings w in
  (existsb is_PrintBegin (events_since w (snd outcome)) = true <->
   format_reported answer (format print_settings)) /\
  (format_reported answer (format print_settings) ->
   fst outcome
   = Instance__PrintBegin (trace w1 ++ [Called (Call_PrintBegin a print_settings) m]) /\
   events_since w (snd outcome)
   = [Called (Call_QuerySupportedPrintOutputFormats 0) m;
      Called (Call_PrintBegin a print_settings) m]) /\
  (~ format_reported answer (format print_settings) ->
   fst outcome = 0%Z /\ snd outcome = w1) /\
  (fst answer = None -> fst outcome = 0%Z /\ snd outcome = w1).
Proof.
  intros Hget Hfound w1 answer outcome.
  assert (Hyes : format_reported answer (format print_settings) ->
                 outcome = forwarded (Call_PrintBegin a print_settings)
                             Instance__PrintBegin m w1)
    by (intros Hrep; now apply (Printing_Begin_reported w m pp_instance a)).
  assert (Hno : ~ format_reported answer (format print_settings) ->
                outcome = (0%Z, w1))
    by (intros Hrep; now apply (Printing_Begin_not_reported w m pp_instance a)).
  assert (Hnull : fst answer = None ->
                  ~ format_reported answer (format print_settings)).
  { intros Hn (mem & i & Hm & _). congruence. }
  assert (Hdec : format_reported answer (format print_settings) \/
                 ~ format_reported answer (format print_settings)).
  { destruct (fst answer) as [mem|] eqn:Hmem.
    - destruct (format_loop mem (format print_settings) 0 (N.to_nat (snd answer)))
        eqn:Hloop.
      + left. now apply (format_loop_reported answer mem).
      + right. intros Hrep.
        apply (format_loop_reported answer mem) in Hrep; [congruence|exact Hmem].
    - right. intros (mem & i & Hm & _). congruence. }
  split; [|split; [|split]].
  - split.
    + intros Hcall. destruct Hdec as [Hrep|Hrep]; [exact Hrep|].
      rewrite (Hno Hrep) in Hcall. cbn [snd] in Hcall. unfold w1 in Hcall.
      rewrite events_since_enter in Hcall. discriminate.
    + intros Hrep. rewrite (Hyes Hrep). unfold forwarded, w1. cbn [snd].
      now rewrite events_since_enter2.
  - intros Hrep. rewrite (Hyes Hrep). unfold forwarded, w1. cbn [fst snd].
    split; [reflexivity|]. now rewrite events_since_enter2.
  - intros Hrep. now rewrite (Hno Hrep).
  - intros Hn. now rewrite (Hno (Hnull Hn)).
Qed.

(** *** Delete before destroy *)



(** *** The registry follows the history *)

Lemma most_recently_stored_snoc (tr : History) (e : Event) (instance : PP_Instance) :
  most_recently_stored (tr ++ [e]) instance = newest_entry (e :: rev tr) instance.
Proof.
  unfold most_recently_stored. now rewrite rev_app_distr.
Qed.

Lemma enter_matches (c : Call) (m : Module_) (w : World) :
  Module__Get w = Some m ->
  registry_matches_history w ->
  registry_matches_history (enter c m w).
Proof.
  intros Hget (m0 & Hm0 & Hagree). rewrite Hget in Hm0. injection Hm0 as <-.
  exists m. split; [reflexivity|]. intros i. cbn [enter trace].
  rewrite most_recently_stored_snoc. cbn [newest_entry]. apply Hagree.
Qed.

Lemma Instance_New_matches (instance : PP_Instance) (w : World) :
  registry_matches_history w ->
  registry_matches_history (snd (Instance_New instance w)).
Proof.
  intros Hw. pose proof Hw as (m & Hget & Hagree).
  unfold Instance_New. rewrite Hget.
  destruct (Module__CreateInstance _) as [a|] eqn:Hnew; cbn [snd].
  - eexists. split; [reflexivity|]. intros i.
    cbn [write_registry enter trace set_current_instances_ current_instances_].
    rewrite most_recently_stored_snoc. cbn [newest_entry].
    case_bool_decide as Hi.
    + subst i. now rewrite lookup_insert_eq.
    + rewrite lookup_insert_ne by exact Hi.
      fold (most_recently_stored
              (trace w ++ [Called (Call_CreateInstance instance) m]) i).
      rewrite most_recently_stored_snoc. cbn [newest_entry]. apply Hagree.
  - now apply enter_matches.
Qed.

Lemma Instance_Delete_matches (instance : PP_Instance) (w : World) :
  registry_matches_history w ->
  registry_matches_history (Instance_Delete instance w).
Proof.
  intros Hw. pose proof Hw as (m & Hget & Hagree).
  unfold Instance_Delete. rewrite Hget.
  destruct (current_instances_ m !! instance) as [obj|] eqn:Hfound; [|exact Hw].
  assert (Hmid : registry_matches_history
            (write_registry (Erased instance)
               (set_current_instances_
                  (delete instance (current_instances_ m)) m) w)).
  { eexists. split; [reflexivity|]. intros i.
    cbn [write_registry trace set_current_instances_ current_instances_].
    rewrite most_recently_stored_snoc. cbn [newest_entry].
    case_bool_decide as Hi.
    - subst i. now rewrite lookup_delete_eq.
    - rewrite lookup_delete_ne by exact Hi. apply Hagree. }
  destruct obj as [a|]; [|exact Hmid].
  now apply enter_matches.
Qed.

Lemma invoke_matches (cb : Callback) (w : World) :
  registry_matches_history w ->
  registry_matches_history (invoke cb w).
Proof.
  intros Hw. pose proof Hw as (m & Hget & Hagree).
  destruct cb; cbn [invoke];
    try (now apply Instance_New_matches);
    try (now apply Instance_Delete_matches);
    unfold Instance_Initialize, Instance_HandleDocumentLoad,
      Instance_HandleEvent, Instance_GetInstanceObject, Instance_ViewChanged,
      Printing_QuerySupportedFormats, Printing_Begin, Printing_PrintPages,
      Printing_End;
    rewrite Hget;
    try (destruct (Module__InstanceForPPInstance m pp_instance) as [a|];
         cbn [snd]; [|exact Hw]);
    cbn [snd];
    try (now apply enter_matches).
  destruct (Module__QuerySupportedPrintOutputFormats _) as [formats n].
  destruct formats as [mem|]; cbn [snd]; [|now apply enter_matches].
  destruct (format_loop mem (format print_settings) 0 (N.to_nat n)); cbn [snd].
  - apply enter_matches; [reflexivity|]. now apply enter_matches.
  - now apply enter_matches.
Qed.

Lemma run_matches (cbs : list Callback) (w : World) :
  registry_matches_history w ->
  registry_matches_history (run cbs w).
Proof.
  unfold run. revert w. induction cbs as [|cb cbs IH]; intros w Hw; cbn.
  - exact Hw.
  - apply IH. now apply invoke_matches.
Qed.

Lemma fresh_world_matches : registry_matches_history fresh_world.
Proof.
  exists Module__Module. split; [reflexivity|]. intros i. cbn.
  apply lookup_empty.
Qed.

(** *** Handles that are not registered *)

(** X1.  With a singleton but no object behind the handle, the eight callbacks
    that look the handle up return their failure value and change nothing;
    [Instance_Delete] changes nothing when the map has no entry for it. *)
Theorem callbacks_on_unregistered_handle (w : World) (m : Module_)
    (pp_instance : PP_Instance) :
  Module__Get w = Some m ->
  Module__InstanceForPPInstance m pp_instance = None ->
  (forall argc argn argv,
     Instance_Initialize pp_instance argc argn argv w = (false, w)) /\
  (forall pp_url_loader,
     Instance_HandleDocumentLoad pp_instance pp_url_loader w = (false, w)) /\
  (forall event, Instance_HandleEvent pp_instance event w = (false, w)) /\
  Instance_GetInstanceObject pp_instance w = (Var_undefined, w) /\
  (forall position clip, Instance_ViewChanged pp_instance position clip w = w) /\
  (forall print_settings,
     Printing_Begin pp_instance print_settings w = (0%Z, w)) /\
  (forall page_ranges page_range_count,
     Printing_PrintPages pp_instance page_ranges page_range_count w
     = (Resource_null, w)) /\
  Printing_End pp_instance w = w /\
  ((current_instances_ m !! pp_instance : option Instance_ptr) = None ->
   Instance_Delete pp_instance w = w).
Proof.
  intros Hget Hnone.
  unfold Instance_Initialize, Instance_HandleDocumentLoad, Instance_HandleEvent,
    Instance_GetInstanceObject, Instance_ViewChanged, Printing_Begin,
    Printing_PrintPages, Printing_End, Instance_Delete.
  rewrite Hget, Hnone. repeat split. intros Habsent. now rewrite Habsent.
Qed.

(** X2.  A second [Instance_Delete] of the same handle does nothing: no second
    erasure and no second destructor run. *)
Theorem Instance_Delete_idempotent (instance : PP_Instance) (w : World) :
  Instance_Delete instance (Instance_Delete instance w)
  = Instance_Delete instance w.
Proof.
  assert (Hgone : forall m w0,
            Module__Get w0 = Some m ->
            (current_instances_ m !! instance : option Instance_ptr) = None ->
            Instance_Delete instance w0 = w0).
  { intros m w0 Hget Habsent. unfold Instance_Delete.
    now rewrite Hget, Habsent. }
  remember (Instance_Delete instance w) as w1 eqn:Hw1.
  unfold Instance_Delete in Hw1.
  destruct (Module__Get w) as [m|] eqn:Hget.
  - destruct (current_instances_ m !! instance : option Instance_ptr)
      as [obj|] eqn:Hfound.
    + cbv zeta in Hw1.
      destruct obj as [a|]; subst w1;
        (eapply Hgone; [reflexivity | cbn; apply lookup_delete_eq]).
    + subst w1. now apply (Hgone m).
  - subst w1. unfold Instance_Delete. now rewrite Hget.
Qed.

(** *** Creating, replacing and deleting *)

Lemma set_current_instances_same (m : Module_) :
  set_current_instances_ (current_instances_ m) m = m.
Proof.
  now destruct m.
Qed.

(** X3.  [Instance_New] followed by [Instance_Delete] of the same handle: the
    object destroyed is the object just created, the handle is unbound
    afterwards, and a module that had no entry for the handle is back as it
    was. *)
Theorem Instance_New_then_Delete (instance : PP_Instance) (w : World)
    (m : Module_) (a : addr) :
  Module__Get w = Some m ->
  Module__CreateInstance (trace (enter (Call_CreateInstance instance) m w))
  = Some a ->
  let erased :=
    set_current_instances_ (delete instance (current_instances_ m)) m in
  let w2 := Instance_Delete instance (snd (Instance_New instance w)) in
  events_since w w2
  = [Called (Call_CreateInstance instance) m; Stored instance (Some a);
     Erased instance; Called (Call_delete a) erased] /\
  Module__Get w2 = Some erased /\
  Module__InstanceForPPInstance erased instance = None /\
  ((current_instances_ m !! instance : option Instance_ptr) = None ->
   Module__Get w2 = Module__Get w).
Proof.
  intros Hget Hnew erased w2.
  assert (Hw2 : w2 = {| Module__Get := Some erased;
                        trace := trace w ++
                          [Called (Call_CreateInstance instance) m;
                           Stored instance (Some a);
                           Erased instance; Called (Call_delete a) erased] |}).
  { unfold w2, Instance_New. rewrite Hget, Hnew. cbn [snd].
    unfold Instance_Delete.
    cbn [write_registry enter Module__Get trace set_current_instances_
         current_instances_].
    rewrite lookup_insert_eq. cbv zeta.
    unfold erased, enter, write_registry, set_current_instances_.
    cbn [Module__Get trace current_instances_ pp_module_
         get_browser_interface_ core_].
    rewrite delete_insert_eq. f_equal. rewrite <- !app_assoc. reflexivity. }
  rewrite Hw2. cbn [Module__Get].
  split; [now apply events_since_app|]. split; [reflexivity|]. split.
  - unfold erased. rewrite InstanceForPPInstance_delete.
    now rewrite bool_decide_eq_true_2.
  - intros Habsent. rewrite Hget. f_equal. unfold erased.
    rewrite delete_id by exact Habsent. apply set_current_instances_same.
Qed.

(** X4.  [Instance_New] on a handle that is already bound rebinds it to the new
    object and does not destroy the old one: the only events are the
    [CreateInstance] call, during which the handle still leads to the old
    object, and the store; the map keeps its size. *)
Theorem Instance_New_rebinds_without_destroying (instance : PP_Instance)
    (w : World) (m : Module_) (old a : addr) :
  Module__Get w = Some m ->
  (current_instances_ m !! instance : option Instance_ptr) = Some (Some old) ->
  Module__CreateInstance (trace (enter (Call_CreateInstance instance) m w))
  = Some a ->
  exists m',
    Instance_New instance w
    = (true, {| Module__Get := Some m';
                trace := trace w ++ [Called (Call_CreateInstance instance) m;
                                     Stored instance (Some a)] |}) /\
    Module__InstanceForPPInstance m instance = Some old /\
    Module__InstanceForPPInstance m' instance = Some a /\
    size (current_instances_ m') = size (current_instances_ m) /\
    existsb is_destroy (events_since w (snd (Instance_New instance w))) = false.
Proof.
  intros Hget Hold Hnew.
  exists (set_current_instances_
            (<[instance := Some a]> (current_instances_ m)) m).
  assert (Hrun : Instance_New instance w
                 = (true, {| Module__Get :=
                               Some (set_current_instances_
                                       (<[instance := Some a]>
                                          (current_instances_ m)) m);
                             trace := trace w ++
                               [Called (Call_CreateInstance instance) m;
                                Stored instance (Some a)] |})).
  { unfold Instance_New. rewrite Hget, Hnew.
    unfold write_registry, enter. cbn [trace]. now rewrite <- app_assoc. }
  split; [exact Hrun|]. split.
  { unfold Module__InstanceForPPInstance. now rewrite Hold. }
  split.
  { rewrite InstanceForPPInstance_insert. now rewrite bool_decide_eq_true_2. }
  split.
  { cbn [set_current_instances_ current_instances_].
    apply map_size_insert_Some. exists (Some old). exact Hold. }
  rewrite Hrun. cbn [snd].
  now erewrite events_since_app by reflexivity.
Qed.

(** *** One callback at a time *)

Lemma invoke_without_module (cb : Callback) (w : World) :
  Module__Get w = None -> invoke cb w = w.
Proof.
  intros Hget.
  destruct cb; cbn [invoke];
    unfold Instance_New, Instance_Delete, Instance_Initialize,
      Instance_HandleDocumentLoad, Instance_HandleEvent,
      Instance_GetInstanceObject, Instance_ViewChanged,
      Printing_QuerySupportedFormats, Printing_Begin, Printing_PrintPages,
      Printing_End;
    now rewrite Hget.
Qed.

(** What one callback does to a world with a singleton: it only calls into
    plugin code and leaves the module alone, or it is a successful
    [Instance_New], or an [Instance_Delete] of a handle that has an entry. *)
Lemma invoke_step (cb : Callback) (w : World) (m : Module_) :
  Module__Get w = Some m ->
  exists added m',
    trace (invoke cb w) = trace w ++ added /\
    Module__Get (invoke cb w) = Some m' /\
    step_shape cb m added m'.
Proof.
  intros Hget.
  assert (Hsame : exists added m',
            trace w = trace w ++ added /\ Module__Get w = Some m' /\
            step_shape cb m added m').
  { exists [], m. split; [now rewrite app_nil_r|]. split; [exact Hget|].
    left. split; reflexivity. }
  assert (Hcall : forall c,
            is_plain_call (Called c m) = true ->
            exists added m',
              trace (enter c m w) = trace w ++ added /\
              Module__Get (enter c m w) = Some m' /\
              step_shape cb m added m').
  { intros c Hc. exists [Called c m], m. split; [reflexivity|].
    split; [reflexivity|]. left. split; [|reflexivity].
    cbn [forallb]. now rewrite Hc. }
  destruct cb; cbn [invoke].
  - (* Instance_New *)
    unfold Instance_New. rewrite Hget.
    destruct (Module__CreateInstance _) as [a|] eqn:Hnew; cbn [snd].
    + eexists _, _. split; [|split; [reflexivity|]].
      * unfold write_registry, enter. cbn [trace].
        rewrite <- app_assoc. reflexivity.
      * right. left. exists instance, a. repeat split.
    + now apply Hcall.
  - (* Instance_Delete *)
    unfold Instance_Delete. rewrite Hget.
    destruct (current_instances_ m !! instance : option Instance_ptr)
      as [obj|] eqn:Hfound; [|exact Hsame].
    cbv zeta. eexists _, _. split; [|split].
    3:{ right. right. exists instance, obj. repeat split. exact Hfound. }
    + destruct obj as [a|]; unfold write_registry, enter; cbn [trace].
      * rewrite <- app_assoc. reflexivity.
      * reflexivity.
    + now destruct obj.
  - unfold Instance_Initialize. rewrite Hget.
    destruct (Module__InstanceForPPInstance m pp_instance); cbn [snd];
      [now apply Hcall | exact Hsame].
  - unfold Instance_HandleDocumentLoad. rewrite Hget.
    destruct (Module__InstanceForPPInstance m pp_instance); cbn [snd];
      [now apply Hcall | exact Hsame].
  - unfold Instance_HandleEvent. rewrite Hget.
    destruct (Module__InstanceForPPInstance m pp_instance); cbn [snd];
      [now apply Hcall | exact Hsame].
  - unfold Instance_GetInstanceObject. rewrite Hget.
    destruct (Module__InstanceForPPInstance m pp_instance); cbn [snd];
      [now apply Hcall | exact Hsame].
  - unfold Instance_ViewChanged. rewrite Hget.
    destruct (Module__InstanceForPPInstance m pp_instance);
      [now apply Hcall | exact Hsame].
  - unfold Printing_QuerySupportedFormats. rewrite Hget. cbn [snd].
    now apply Hcall.
  - (* Printing_Begin *)
    unfold Printing_Begin. rewrite Hget.
    destruct (Module__InstanceForPPInstance m pp_instance) as [a|];
      cbn [snd]; [|exact Hsame].
    destruct (Module__QuerySupportedPrintOutputFormats _) as [formats n].
    destruct formats as [mem|]; cbn [snd]; [|now apply Hcall].
    destruct (format_loop mem (format print_settings) 0 (N.to_nat n));
      cbn [snd]; [|now apply Hcall].
    exists [Called (Call_QuerySupportedPrintOutputFormats 0) m;
            Called (Call_PrintBegin a print_settings) m], m.
    split; [|split; [reflexivity|]].
    + unfold enter. cbn [trace]. now rewrite <- app_assoc.
    + left. split; reflexivity.
  - unfold Printing_PrintPages. rewrite Hget.
    destruct (Module__InstanceForPPInstance m pp_instance); cbn [snd];
      [now apply Hcall | exact Hsame].
  - unfold Printing_End. rewrite Hget.
    destruct (Module__InstanceForPPInstance m pp_instance);
      [now apply Hcall | exact Hsame].
Qed.

Lemma plain_calls_are_neutral (added : list Event) :
  forallb is_plain_call added = true ->
  existsb is_store added = false /\
  existsb is_erase added = false /\
  existsb is_destroy added = false.
Proof.
  induction added as [|e rest IH]; cbn [forallb existsb]; [auto|].
  intros [He Hrest]%andb_prop. destruct (IH Hrest) as (Hs & He' & Hd).
  rewrite Hs, He', Hd.
  destruct e as [c v| |]; try discriminate. now destruct c.
Qed.

Lemma events_since_self (w : World) : events_since w w = [].
Proof.
  apply events_since_app. now rewrite app_nil_r.
Qed.

(** X5.  Only [Instance_New] stores into the map, only [Instance_Delete] erases
    from it and runs a destructor, and the nine other callbacks leave the
    whole module object as it was, whatever the handle and the arguments. *)
Theorem only_New_stores_only_Delete_destroys (cb : Callback) (w : World) :
  (existsb is_store (events_since w (invoke cb w)) = true ->
   exists i, cb = CB_Instance_New i) /\
  (existsb is_erase (events_since w (invoke cb w)) = true ->
   exists i, cb = CB_Instance_Delete i) /\
  (existsb is_destroy (events_since w (invoke cb w)) = true ->
   exists i, cb = CB_Instance_Delete i) /\
  (writes_registry cb = false -> Module__Get (invoke cb w) = Module__Get w).
Proof.
  destruct (Module__Get w) as [m|] eqn:Hget.
  - destruct (invoke_step cb w m Hget) as (added & m' & Htr & Hm' & Hshape).
    rewrite (events_since_app _ _ _ Htr), Hm'.
    destruct Hshape as [[Hplain ->]|[(i & a & -> & -> & ->)|(i & obj & -> & _ & _ & ->)]].
    + destruct (plain_calls_are_neutral added Hplain) as (Hs & He & Hd).
      rewrite Hs, He, Hd. repeat split; discriminate.
    + cbn. repeat split; try discriminate. intros _. now exists i.
    + repeat split; try discriminate; try (intros _; now exists i).
      destruct obj; discriminate.
  - rewrite (invoke_without_module cb w Hget), events_since_self, Hget.
    cbn. repeat split; discriminate.
Qed.

(** X6.  A callback leaves the entries of all handles other than its own as
    they were. *)
Theorem callbacks_touch_one_handle (cb : Callback) (w : World) (m : Module_)
    (other : PP_Instance) :
  Module__Get w = Some m ->
  callback_handle cb <> Some other ->
  exists m',
    Module__Get (invoke cb w) = Some m' /\
    (current_instances_ m' !! other : option Instance_ptr)
    = current_instances_ m !! other /\
    Module__InstanceForPPInstance m' other
    = Module__InstanceForPPInstance m other.
Proof.
  intros Hget Hother.
  destruct (invoke_step cb w m Hget) as (added & m' & _ & Hm' & Hshape).
  exists m'. split; [exact Hm'|].
  destruct Hshape as [[_ ->]|[(i & a & -> & _ & ->)|(i & obj & -> & _ & -> & _)]].
  - split; reflexivity.
  - assert (i <> other) by (intros ->; now apply Hother).
    split.
    + cbn. now apply lookup_insert_ne.
    + rewrite InstanceForPPInstance_insert. now rewrite bool_decide_eq_false_2.
  - assert (i <> other) by (intros ->; now apply Hother).
    split.
    + cbn. now apply lookup_delete_ne.
    + rewrite InstanceForPPInstance_delete. now rewrite bool_decide_eq_false_2.
Qed.

(** *** Whole runs *)

Lemma run_invariant (P : World -> Prop) :
  (forall cb w, P w -> P (invoke cb w)) ->
  forall cbs w, P w -> P (run cbs w).
Proof.
  intros Hstep cbs. unfold run.
  induction cbs as [|cb cbs IH]; intros w Hw; cbn; [exact Hw|].
  apply IH. now apply Hstep.
Qed.

(** X7.  No sequence of callbacks drops the singleton or changes what
    [InternalInit] set up: [pp_module_], [get_browser_interface_] and
    [core_] stay as they were. *)
Theorem run_keeps_module_fields (cbs : list Callback) (w : World) (m : Module_) :
  Module__Get w = Some m ->
  exists m',
    Module__Get (run cbs w) = Some m' /\
    pp_module_ m' = pp_module_ m /\
    get_browser_interface_ m' = get_browser_interface_ m /\
    core_ m' = core_ m.
Proof.
  intros Hget.
  apply (run_invariant
           (fun w0 => exists m',
              Module__Get w0 = Some m' /\
              pp_module_ m' = pp_module_ m /\
              get_browser_interface_ m' = get_browser_interface_ m /\
              core_ m' = core_ m)).
  - intros cb w0 (m0 & Hget0 & Hp & Hg & Hc).
    destruct (invoke_step cb w0 m0 Hget0) as (added & m' & _ & Hm' & Hshape).
    exists m'. split; [exact Hm'|].
    destruct Hshape as [[_ ->]|[(i & a & _ & _ & ->)|(i & obj & _ & _ & -> & _)]];
      cbn; auto.
  - exists m. auto.
Qed.

Lemma count_events_app (p : Event -> bool) (tr added : list Event) :
  count_events p (tr ++ added) = count_events p tr + count_events p added.
Proof.
  unfold count_events. now rewrite List.filter_app, length_app.
Qed.

Lemma count_events_none (p : Event -> bool) (added : list Event) :
  existsb p added = false -> count_events p added = 0.
Proof.
  unfold count_events. induction added as [|e rest IH]; cbn; [reflexivity|].
  destruct (p e); cbn; [discriminate | exact IH].
Qed.

Lemma invoke_accounts (cb : Callback) (w : World) :
  lifecycle_accounts w -> lifecycle_accounts (invoke cb w).
Proof.
  intros (m & Hget & Hnonnull & Hsame & Hle).
  destruct (invoke_step cb w m Hget) as (added & m' & Htr & Hm' & Hshape).
  exists m'. split; [exact Hm'|]. rewrite Htr, !count_events_app.
  destruct Hshape as [[Hplain ->]|[(i & a & _ & -> & ->)|(i & obj & _ & Hfound & -> & ->)]].
  - destruct (plain_calls_are_neutral added Hplain) as (Hs & He & Hd).
    rewrite (count_events_none _ _ Hs), (count_events_none _ _ He),
      (count_events_none _ _ Hd).
    split; [exact Hnonnull|]. lia.
  - cbn [set_current_instances_ current_instances_]. split; [|split].
    + intros h. destruct (decide (i = h)) as [->|Hne].
      * rewrite lookup_insert_eq. discriminate.
      * rewrite lookup_insert_ne by exact Hne. apply Hnonnull.
    + cbn. lia.
    + rewrite map_size_insert. unfold count_events at 2 4. cbn.
      match goal with
      | |- context [match ?entry with Some _ => id | None => S end] =>
          destruct entry
      end; unfold id; lia.
  - destruct obj as [a|]; [|now destruct (Hnonnull i)].
    cbn [set_current_instances_ current_instances_]. split; [|split].
    + intros h. destruct (decide (i = h)) as [->|Hne].
      * rewrite lookup_delete_eq. discriminate.
      * rewrite lookup_delete_ne by exact Hne. apply Hnonnull.
    + cbn. lia.
    + assert (Hpos : size (current_instances_ m) <> 0).
      { apply map_size_non_empty_iff. intros Hempty.
        rewrite Hempty in Hfound. now rewrite lookup_empty in Hfound. }
      rewrite map_size_delete_Some by (now exists (Some a)).
      unfold count_events at 2 4. cbn. lia.
Qed.

(** X8.  After any sequence of callbacks on a freshly constructed module: the map
    holds no null pointer, each erasure has had its destructor run, and the
    number of objects destroyed plus the number still registered never
    exceeds the number of objects [CreateInstance] delivered. *)
Theorem created_cover_destroyed_and_live (cbs : list Callback) :
  exists m,
    Module__Get (run cbs fresh_world) = Some m /\
    (forall h, (current_instances_ m !! h : option Instance_ptr) <> Some None) /\
    count_events is_destroy (trace (run cbs fresh_world))
    = count_events is_erase (trace (run cbs fresh_world)) /\
    count_events is_destroy (trace (run cbs fresh_world))
    + size (current_instances_ m)
    <= count_events is_store (trace (run cbs fresh_world)).
Proof.
  assert (Hinv : lifecycle_accounts (run cbs fresh_world)).
  { apply run_invariant; [apply invoke_accounts|].
    exists Module__Module. split; [reflexivity|]. split.
    - intros h. cbn. now rewrite lookup_empty.
    - split; [reflexivity|]. cbn. rewrite map_size_empty. lia. }
  destruct Hinv as (m & Hget & Hnonnull & Hsame & Hle).
  exists m. split; [exact Hget|]. split; [exact Hnonnull|].
  split; [exact Hsame|]. lia.
Qed.

Lemma newest_entry_In (l : list Event) (h : PP_Instance) (a : addr) :
  newest_entry l h = Some a -> In (Stored h (Some a)) l.
Proof.
  induction l as [|e rest IH]; cbn [newest_entry]; [discriminate|].
  destruct e as [c v|i obj|i].
  - intros H. right. now apply IH.
  - case_bool_decide as Hi.
    + intros ->. left. now subst i.
    + intros H. right. now apply IH.
  - case_bool_decide as Hi; [discriminate|].
    intros H. right. now apply IH.
Qed.

Lemma plain_calls_hold_no_destroy (added : list Event) (a : addr)
    (visible : Module_) :
  forallb is_plain_call added = true ->
  ~ In (Called (Call_delete a) visible) added.
Proof.
  induction added as [|e rest IH]; cbn [forallb]; [intros _ []|].
  intros [He Hrest]%andb_prop [->|Hin]; [discriminate | now apply IH].
Qed.

Lemma stored_before (tr : History) (h : PP_Instance) (a : addr) :
  most_recently_stored tr h = Some a ->
  exists k, k < length tr /\ tr !! k = Some (Stored h (Some a)).
Proof.
  intros Hmrs. apply newest_entry_In, in_rev, list_elem_of_In in Hmrs.
  apply list_elem_of_lookup_1 in Hmrs as [k Hk].
  exists k. split; [now apply lookup_lt_Some in Hk | exact Hk].
Qed.

Lemma invoke_destroyed_were_stored (cb : Callback) (w : World) :
  registry_matches_history w ->
  destroyed_were_stored (trace w) ->
  destroyed_were_stored (trace (invoke cb w)).
Proof.
  intros (m & Hget & Hagree) Hprov.
  destruct (invoke_step cb w m Hget) as (added & m' & Htr & _ & Hshape).
  rewrite Htr. intros n a visible Hn.
  apply lookup_app_Some in Hn as [Hold|[Hge Hnew]].
  { destruct (Hprov n a visible Hold)
      as (h & p & k & -> & Hp & Hmrs & Hk & Hst & Hnull).
    pose proof (lookup_lt_Some _ _ _ Hold) as Hlen.
    exists h, p, k. split; [reflexivity|].
    split; [now apply lookup_app_l_Some|].
    split; [rewrite take_app_le by lia; exact Hmrs|].
    split; [exact Hk|]. split; [now apply lookup_app_l_Some | exact Hnull]. }
  destruct Hshape
    as [[Hplain _]|[(i & a0 & _ & -> & _)|(i & obj & _ & Hfound & -> & ->)]].
  - apply list_elem_of_lookup_2, list_elem_of_In in Hnew.
    now destruct (plain_calls_hold_no_destroy added a visible Hplain).
  - destruct (n - length (trace w)) as [|[|j]]; discriminate.
  - destruct (n - length (trace w)) as [|[|j]] eqn:Hj; [discriminate| |].
    2:{ destruct obj; discriminate. }
    destruct obj as [a0|]; [|discriminate].
    cbn in Hnew. injection Hnew as -> <-.
    assert (Hmrs : most_recently_stored (trace w) i = Some a).
    { specialize (Hagree i). rewrite Hfound in Hagree.
      destruct (most_recently_stored (trace w) i); congruence. }
    destruct (stored_before _ _ _ Hmrs) as (k & Hk & Hst).
    exists i, (length (trace w)), k. split; [lia|].
    split; [now apply list_lookup_middle|].
    split; [now rewrite take_app_length|].
    split; [exact Hk|]. split; [now apply lookup_app_l_Some|].
    rewrite InstanceForPPInstance_delete. now rewrite bool_decide_eq_true_2.
Qed.

(** X9.  After any sequence of callbacks on a freshly constructed module,
    every destructor the shim ran came right after the erasure of a handle,
    was for the object that [Instance_New] had most recently stored under
    that handle before the erasure (so the store is an earlier event of the
    history), and ran while lookups of that handle gave null. *)
Theorem destroyed_objects_were_registered (cbs : list Callback) (n : nat)
    (a : addr) (visible : Module_) :
  trace (run cbs fresh_world) !! n = Some (Called (Call_delete a) visible) ->
  exists h p k,
    n = S p /\
    trace (run cbs fresh_world) !! p = Some (Erased h) /\
    most_recently_stored (take p (trace (run cbs fresh_world))) h = Some a /\
    k < p /\
    trace (run cbs fresh_world) !! k = Some (Stored h (Some a)) /\
    Module__InstanceForPPInstance visible h = None.
Proof.
  revert n a visible. fold (destroyed_were_stored (trace (run cbs fresh_world))).
  assert (Hinv : registry_matches_history (run cbs fresh_world) /\
                 destroyed_were_stored (trace (run cbs fresh_world))).
  { apply (run_invariant
             (fun w => registry_matches_history w /\
                       destroyed_were_stored (trace w))).
    - intros cb w [Hm Hp]. split; [now apply invoke_matches|].
      now apply invoke_destroyed_were_stored.
    - split; [apply fresh_world_matches|]. intros n a visible Hn.
      discriminate. }
  apply Hinv.
Qed.

(** *** Initialisation and lookup, in general *)

(** X10.  [Module::InternalInit] with a browser function: the two arguments and
    the core pointer are stored and the map is not touched; afterwards
    [GetBrowserInterface] answers with the browser function just installed;
    with a null core pointer the history is unchanged (no [Init()]) and the
    result is false; with a core pointer [Init()] is called once and its
    result is the result; so true is returned only with a core interface and
    a successful [Init()]. *)
Theorem InternalInit_postcondition (this : Module_) (tr : History)
    (mod_ : PP_Module) (browser_fn : string -> const_void_ptr) :
  exists result this' tr',
    Module__InternalInit this tr mod_ (Some browser_fn)
    = Some (result, this', tr') /\
    pp_module_ this' = mod_ /\
    get_browser_interface_ this' = Some browser_fn /\
    core_ this' = browser_fn PPB_CORE_INTERFACE /\
    current_instances_ this' = current_instances_ this /\
    (forall interface_name,
       Module__GetBrowserInterface this' interface_name
       = Some (browser_fn interface_name)) /\
    (core_ this' = NULL -> tr' = tr /\ result = false) /\
    (core_ this' <> NULL ->
     tr' = tr ++ [Called Call_Module_Init this'] /\ result = Module__Init tr') /\
    (result = true ->
     core_ this' <> NULL /\ Module__Init (tr ++ [Called Call_Module_Init this']) = true).
Proof.
  unfold Module__InternalInit, Module__GetBrowserInterface.
  cbn [get_browser_interface_ set_get_browser_interface_ set_core_ core_
       set_pp_module_ pp_module_ current_instances_].
  destruct (is_null (browser_fn PPB_CORE_INTERFACE)) eqn:Hnull;
    eexists _, _, _; (split; [reflexivity|]);
    cbn [get_browser_interface_ core_ pp_module_ current_instances_];
    repeat (split; [reflexivity|]).
  - cbn [core_ set_core_].
    destruct (browser_fn PPB_CORE_INTERFACE); try discriminate.
    split; [auto|]. split; [congruence | discriminate].
  - cbn [core_ set_core_].
    assert (Hcore : browser_fn PPB_CORE_INTERFACE <> NULL)
      by (intros Heq; now rewrite Heq in Hnull).
    split; [intros Heq; now destruct Hcore|].
    split; [auto|]. intros Htrue. split; [exact Hcore | exact Htrue].
Qed.

(** X11.  [Module::GetInstanceInterface] answers with a table exactly for the two
    names it knows, whether or not they differ, and never hands out a
    pointer of the browser's. *)
Theorem GetInstanceInterface_known_names (interface_name : string) :
  (Module__GetInstanceInterface interface_name <> NULL <->
   interface_name = PPP_INSTANCE_INTERFACE \/
   interface_name = PPP_PRINTING_INTERFACE) /\
  (Module__GetInstanceInterface interface_name = addr_instance_interface <->
   interface_name = PPP_INSTANCE_INTERFACE) /\
  (forall p, Module__GetInstanceInterface interface_name <> browser_ptr p).
Proof.
  unfold Module__GetInstanceInterface. rewrite !strcmp_eqb.
  repeat case_bool_decide; repeat split; try congruence; try tauto;
    try (intros [|]; congruence); try discriminate.
Qed.

(** *** The lookup follows the callbacks *)

Lemma invoke_rebinds (cb : Callback) (w : World) (m : Module_)
    (instance : PP_Instance) :
  Module__Get w = Some m ->
  exists m',
    Module__Get (invoke cb w) = Some m' /\
    Module__InstanceForPPInstance m' instance
    = rebind cb w instance (Module__InstanceForPPInstance m instance).
Proof.
  intros Hget.
  destruct cb as [i|i| | | | | | | | |];
    try (match goal with
         | |- context [invoke ?c w] =>
             destruct (invoke_step c w m Hget)
               as (added & m' & _ & Hm' &
                   [[_ ->]|[(i & a & Hcb & _)|(i & obj & Hcb & _)]])
         end;
         try discriminate Hcb; exists m; split; [exact Hm' | reflexivity]).
  - (* Instance_New *)
    cbn [invoke rebind]. unfold created_by_New, Instance_New. rewrite Hget.
    destruct (Module__CreateInstance _) as [a|] eqn:Hnew; cbn [fst snd].
    + eexists. split; [reflexivity|].
      rewrite InstanceForPPInstance_insert, andb_true_r.
      now case_bool_decide.
    + exists m. split; [reflexivity|]. now rewrite andb_false_r.
  - (* Instance_Delete *)
    cbn [invoke rebind]. unfold Instance_Delete. rewrite Hget.
    destruct (current_instances_ m !! i : option Instance_ptr)
      as [obj|] eqn:Hfound.
    + cbv zeta. eexists. split; [now destruct obj|].
      apply InstanceForPPInstance_delete.
    + exists m. split; [exact Hget|].
      case_bool_decide as Hi; [|reflexivity]. subst i.
      unfold Module__InstanceForPPInstance. now rewrite Hfound.
Qed.

(** The last invocation decides: the binding after [cbs] and then [cb] is
    the binding after [cbs], changed by [cb] as [rebind] says. *)
Lemma binding_after_snoc (cbs : list Callback) (cb : Callback) (w : World)
    (instance : PP_Instance) (bound : Instance_ptr) :
  binding_after (cbs ++ [cb]) w instance bound
  = rebind cb (run cbs w) instance (binding_after cbs w instance bound).
Proof.
  revert w bound. induction cbs as [|c rest IH]; intros w bound; cbn.
  - reflexivity.
  - apply IH.
Qed.

(** C3.  After any sequence of callbacks, starting from any module,
    [Module::InstanceForPPInstance] returns for every handle the object
    bound to it by the last [Instance_New] of the handle that returned true
    (the object [CreateInstance] returned in that call), unless an
    [Instance_Delete] of the handle came later, in which case it returns
    null, as it does whenever the map has no entry for the handle. *)
Theorem InstanceForPPInstance_most_recent (cbs : list Callback) (w : World)
    (m0 : Module_) (instance : PP_Instance) :
  Module__Get w = Some m0 ->
  exists m,
    Module__Get (run cbs w) = Some m /\
    Module__InstanceForPPInstance m instance
    = binding_after cbs w instance (Module__InstanceForPPInstance m0 instance) /\
    ((current_instances_ m !! instance : option Instance_ptr) = None ->
     Module__InstanceForPPInstance m instance = None).
Proof.
  revert w m0. unfold run.
  induction cbs as [|cb rest IH]; intros w m0 Hget.
  - exists m0. split; [exact Hget|]. split; [reflexivity|].
    intros Habsent. unfold Module__InstanceForPPInstance. now rewrite Habsent.
  - destruct (invoke_rebinds cb w m0 instance Hget) as (m1 & Hget1 & Hbound).
    destruct (IH (invoke cb w) m1 Hget1) as (m & Hm & Hlookup & Habsent).
    exists m. split; [exact Hm|]. split; [|exact Habsent].
    cbn [binding_after]. now rewrite <- Hbound.
Qed.

End Shim.

(** ** The URL loader header *)

(** C7, as amended.  Whatever the macro of line 19 expands to, the class
    [PluginURLLoader] declares a member function: the public static
    [GetInterface()], returning a [const PPB_URLLoader_Dev*] and taking no
    parameter, is the first of its member functions. *)
Theorem PluginURLLoader_member_functions
    (NACL_DISALLOW_COPY_AND_ASSIGN : string -> list member_decl) :
  member_functions (PluginURLLoader NACL_DISALLOW_COPY_AND_ASSIGN)
  = GetInterface_decl ::
    List.filter is_member_function
      (NACL_DISALLOW_COPY_AND_ASSIGN "PluginURLLoader") /\
  member_access GetInterface_decl = Public /\
  member_is GetInterface_decl = StaticMemberFunction /\
  member_name GetInterface_decl = "GetInterface"%string /\
  member_result GetInterface_decl = "const PPB_URLLoader_Dev*"%string /\
  member_parameters GetInterface_decl = [].
Proof.
  repeat split; reflexivity.
Qed.

(** C7 as stated fails: under no expansion of the macro is the class without
    a member function. *)
Lemma PluginURLLoader_declares_a_member_function :
  ~ exists NACL_DISALLOW_COPY_AND_ASSIGN,
      member_functions (PluginURLLoader NACL_DISALLOW_COPY_AND_ASSIGN) = [].
Proof.
  intros [expansion Hnone]. discriminate Hnone.
Qed.

(** C2 as stated fails for [Printing_Begin]: on the registered handle 7 and a
    request for format 3, which the plugin does not report, the shim returns
    0 and makes no call of [PrintBegin], where forwarding would have returned
    the 42 of [PrintBegin]. *)
Lemma Printing_Begin_is_not_pass_through :
  Module__Get _ _ _ _ (starting_world Z Z Z Z (Some demo_module)) = Some demo_module /\
  Module__InstanceForPPInstance demo_module 7%Z = Some 5%positive /\
  Printing_Begin Z Z Z Z demo_format demo_QuerySupportedPrintOutputFormats
    demo_PrintBegin 7%Z 3%Z (starting_world Z Z Z Z (Some demo_module))
  <> forwarded Z Z Z Z (Call_PrintBegin Z Z Z Z 5%positive 3%Z) demo_PrintBegin
       demo_module (starting_world Z Z Z Z (Some demo_module)) /\
  fst (Printing_Begin Z Z Z Z demo_format demo_QuerySupportedPrintOutputFormats
         demo_PrintBegin 7%Z 3%Z (starting_world Z Z Z Z (Some demo_module))) = 0%Z /\
  fst (forwarded Z Z Z Z (Call_PrintBegin Z Z Z Z 5%positive 3%Z) demo_PrintBegin
         demo_module (starting_world Z Z Z Z (Some demo_module))) = 42%Z /\
  existsb (is_PrintBegin Z Z Z Z)
    (trace _ _ _ _
       (snd (Printing_Begin Z Z Z Z demo_format
               demo_QuerySupportedPrintOutputFormats demo_PrintBegin
               7%Z 3%Z (starting_world Z Z Z Z (Some demo_module))))) = false.
Proof.
  split; [reflexivity|]. split; [reflexivity|]. split.
  - intros Heq. apply (f_equal fst) in Heq. vm_compute in Heq. discriminate.
  - repeat split; reflexivity.
Qed.

(** ** The properties at the concrete plugin *)

(** The dispatch on the names "PPP_Instance;0.1" and "PPP_Printing;0.1". *)
Lemma GetInstanceInterface_dispatch_witness :
  "PPP_Instance;0.1"%string <> "PPP_Printing;0.1"%string /\
  Module__GetInstanceInterface "PPP_Instance;0.1" "PPP_Printing;0.1"
    "PPP_Printing;0.1" = addr_printing_interface /\
  Module__GetInstanceInterface "PPP_Instance;0.1" "PPP_Printing;0.1"
    "PPB_Core;0.1" = NULL.
Proof.
  assert (Hne : "PPP_Instance;0.1"%string <> "PPP_Printing;0.1"%string)
    by discriminate.
  split; [exact Hne|]. split.
  - apply (GetInstanceInterface_dispatch _ _ Hne "PPP_Printing;0.1"). reflexivity.
  - apply (GetInstanceInterface_dispatch _ _ Hne "PPB_Core;0.1"); discriminate.
Defined.

(** The lookup of a module initialised with the concrete browser. *)
Lemma GetBrowserInterface_pass_through_witness :
  get_browser_interface_ (set_get_browser_interface_ (Some demo_browser) demo_module)
  = Some demo_browser /\
  Module__GetBrowserInterface
    (set_get_browser_interface_ (Some demo_browser) demo_module) "PPB_Var;0.1"
  = Some (browser_ptr 3).
Proof.
  split; [reflexivity|].
  apply (GetBrowserInterface_pass_through _ demo_browser "PPB_Var;0.1").
  reflexivity.
Defined.

(** Initialising a fresh module against a browser without the core
    interface. *)
Lemma InternalInit_without_core_witness :
  demo_browser "PPB_Core;0.1" = NULL /\
  exists this',
    Module__InternalInit Z Z Z Z "PPB_Core;0.1" demo_true Module__Module []
      3%Z (Some demo_browser)
    = Some (false, this', []) /\
    pp_module_ this' = 3%Z /\
    get_browser_interface_ this' = Some demo_browser /\
    core_ this' = NULL /\
    current_instances_ this' = current_instances_ Module__Module.
Proof.
  split; [reflexivity|].
  apply InternalInit_without_core. reflexivity.
Defined.

(** The callbacks in a process whose [Module::Get()] is null. *)
Lemma callbacks_without_module_witness :
  Module__Get _ _ _ _ (starting_world Z Z Z Z None) = None /\
  Instance_New Z Z Z Z demo_CreateInstance 7%Z (starting_world Z Z Z Z None)
  = (false, (starting_world Z Z Z Z None)) /\
  Instance_GetInstanceObject Z Z Z Z Z 0%Z demo_GetInstanceObject 7%Z (starting_world Z Z Z Z None)
  = (0%Z, (starting_world Z Z Z Z None)) /\
  Printing_QuerySupportedFormats Z Z Z Z demo_QuerySupportedPrintOutputFormats
    5%N (starting_world Z Z Z Z None)
  = ((None, 0%N), (starting_world Z Z Z Z None)) /\
  Printing_Begin Z Z Z Z demo_format demo_QuerySupportedPrintOutputFormats
    demo_PrintBegin 7%Z 1%Z (starting_world Z Z Z Z None)
  = (0%Z, (starting_world Z Z Z Z None)) /\
  Printing_PrintPages Z Z Z Z 0%Z demo_PrintPages 7%Z None 0%N (starting_world Z Z Z Z None)
  = (0%Z, (starting_world Z Z Z Z None)).
Proof.
  split; [reflexivity|].
  pose proof (callbacks_without_module Z Z Z Z Z demo_format 0%Z 0%Z
                demo_CreateInstance demo_QuerySupportedPrintOutputFormats
                demo_true demo_true demo_true demo_GetInstanceObject
                demo_PrintBegin demo_PrintPages (starting_world Z Z Z Z None) eq_refl)
    as (HNew & _ & _ & _ & _ & HObj & _ & HQuery & HBegin & HPages & _).
  split; [apply HNew|]. split; [apply HObj|]. split; [apply HQuery|].
  split; [apply HBegin | apply HPages].
Defined.

(** Forwarding on the registered handle 7. *)
Lemma registered_callbacks_forward_witness :
  Module__Get _ _ _ _ (starting_world Z Z Z Z (Some demo_module)) = Some demo_module /\
  Module__InstanceForPPInstance demo_module 7%Z = Some 5%positive /\
  Instance_HandleEvent Z Z Z Z demo_true 7%Z 4%Z (starting_world Z Z Z Z (Some demo_module))
  = forwarded Z Z Z Z (Call_HandleEvent Z Z Z Z 5%positive 4%Z) demo_true
      demo_module (starting_world Z Z Z Z (Some demo_module)) /\
  Printing_End Z Z Z Z 7%Z (starting_world Z Z Z Z (Some demo_module))
  = enter Z Z Z Z (Call_PrintEnd Z Z Z Z 5%positive) demo_module (starting_world Z Z Z Z (Some demo_module)).
Proof.
  split; [reflexivity|]. split; [reflexivity|].
  pose proof (registered_callbacks_forward Z Z Z Z Z demo_format 0%Z 0%Z
                demo_QuerySupportedPrintOutputFormats demo_true demo_true
                demo_true demo_GetInstanceObject demo_PrintBegin demo_PrintPages
                (starting_world Z Z Z Z (Some demo_module)) demo_module 7%Z 5%positive eq_refl eq_refl)
    as (_ & _ & HEvent & _ & _ & _ & HEnd & _).
  split; [apply HEvent | apply HEnd].
Defined.

(** A print request for format 2 on the registered handle 7. *)
Lemma Printing_Begin_filters_by_format_witness :
  Module__Get _ _ _ _ (starting_world Z Z Z Z (Some demo_module)) = Some demo_module /\
  Module__InstanceForPPInstance demo_module 7%Z = Some 5%positive /\
  (existsb (is_PrintBegin Z Z Z Z)
     (events_since Z Z Z Z (starting_world Z Z Z Z (Some demo_module))
        (snd (Printing_Begin Z Z Z Z demo_format
                demo_QuerySupportedPrintOutputFormats demo_PrintBegin
                7%Z 2%Z (starting_world Z Z Z Z (Some demo_module))))) = true <->
   format_reported
     (demo_QuerySupportedPrintOutputFormats
        (trace _ _ _ _
           (enter Z Z Z Z (Call_QuerySupportedPrintOutputFormats Z Z Z Z 0)
              demo_module (starting_world Z Z Z Z (Some demo_module)))))
     (demo_format 2%Z)).
Proof.
  split; [reflexivity|]. split; [reflexivity|].
  apply (Printing_Begin_filters_by_format Z Z Z Z demo_format
           demo_QuerySupportedPrintOutputFormats demo_PrintBegin
           (starting_world Z Z Z Z (Some demo_module)) demo_module 7%Z 5%positive 2%Z eq_refl eq_refl).
Defined.


(** ** Runs of the concrete plugin *)

Example strcmp_orders_names :
  CString.strcmp "PPP_Instance;0.1" "PPP_Printing;0.1" = (-1)%Z /\
  CString.strcmp "PPP_Printing;0.1" "PPP_Printing" = 1%Z /\
  CString.strcmp "" "" = 0%Z.
Proof.
  repeat split; reflexivity.
Qed.

(** A reported format: the query, then [PrintBegin], and its 42. *)
Example Printing_Begin_reported_format :
  fst (Printing_Begin Z Z Z Z demo_format demo_QuerySupportedPrintOutputFormats
         demo_PrintBegin 7%Z 2%Z (starting_world Z Z Z Z (Some demo_module))) = 42%Z /\
  trace _ _ _ _
    (snd (Printing_Begin Z Z Z Z demo_format
            demo_QuerySupportedPrintOutputFormats demo_PrintBegin
            7%Z 2%Z (starting_world Z Z Z Z (Some demo_module))))
  = [Called Z Z Z Z (Call_QuerySupportedPrintOutputFormats Z Z Z Z 0) demo_module;
     Called Z Z Z Z (Call_PrintBegin Z Z Z Z 5%positive 2%Z) demo_module].
Proof.
  split; reflexivity.
Qed.

(** An unregistered handle is not forwarded at all. *)
Example Printing_Begin_unregistered_handle :
  Printing_Begin Z Z Z Z demo_format demo_QuerySupportedPrintOutputFormats
    demo_PrintBegin 8%Z 2%Z (starting_world Z Z Z Z (Some demo_module))
  = (0%Z, (starting_world Z Z Z Z (Some demo_module))).
Proof.
  reflexivity.
Qed.

(** New, delete, new again: the handle is bound, unbound, bound. *)
Example registry_follows_the_callbacks :
  let lookup_after cbs :=
    match Module__Get _ _ _ _
            (run Z Z Z Z Z demo_format 0%Z 0%Z demo_CreateInstance
               demo_QuerySupportedPrintOutputFormats demo_true demo_true
               demo_true demo_GetInstanceObject demo_PrintBegin demo_PrintPages
               cbs (fresh_world Z Z Z Z)) with
    | Some m => Module__InstanceForPPInstance m 3%Z
    | None => None
    end in
  lookup_after [] = None /\
  lookup_after [CB_Instance_New Z Z Z Z 3%Z] = Some 9%positive /\
  lookup_after [CB_Instance_New Z Z Z Z 3%Z; CB_Instance_Delete Z Z Z Z 3%Z] = None /\
  lookup_after [CB_Instance_New Z Z Z Z 3%Z; CB_Instance_Delete Z Z Z Z 3%Z;
                CB_Instance_HandleEvent Z Z Z Z 3%Z 0%Z;
                CB_Instance_New Z Z Z Z 3%Z] = Some 9%positive.
Proof.
  repeat split; vm_compute; reflexivity.
Qed.

(** ** Further runs of the concrete plugin *)

Local Abbreviation demo_invoke :=
  (invoke Z Z Z Z Z demo_format 0%Z 0%Z demo_CreateInstance
     demo_QuerySupportedPrintOutputFormats demo_true demo_true demo_true
     demo_GetInstanceObject demo_PrintBegin demo_PrintPages).

Local Abbreviation demo_run :=
  (run Z Z Z Z Z demo_format 0%Z 0%Z demo_CreateInstance
     demo_QuerySupportedPrintOutputFormats demo_true demo_true demo_true
     demo_GetInstanceObject demo_PrintBegin demo_PrintPages).

(** The callbacks on the handle 8, which is not registered. *)
Lemma callbacks_on_unregistered_handle_witness :
  Module__Get _ _ _ _ (starting_world Z Z Z Z (Some demo_module)) = Some demo_module /\
  Module__InstanceForPPInstance demo_module 8%Z = None /\
  Instance_HandleEvent Z Z Z Z demo_true 8%Z 4%Z
    (starting_world Z Z Z Z (Some demo_module))
  = (false, starting_world Z Z Z Z (Some demo_module)) /\
  Printing_PrintPages Z Z Z Z 0%Z demo_PrintPages 8%Z None 0%N
    (starting_world Z Z Z Z (Some demo_module))
  = (0%Z, starting_world Z Z Z Z (Some demo_module)) /\
  Instance_Delete Z Z Z Z 8%Z (starting_world Z Z Z Z (Some demo_module))
  = starting_world Z Z Z Z (Some demo_module).
Proof.
  split; [reflexivity|]. split; [reflexivity|].
  pose proof (callbacks_on_unregistered_handle Z Z Z Z Z demo_format 0%Z 0%Z
                demo_QuerySupportedPrintOutputFormats demo_true demo_true
                demo_true demo_GetInstanceObject demo_PrintBegin demo_PrintPages
                (starting_world Z Z Z Z (Some demo_module)) demo_module 8%Z
                eq_refl eq_refl)
    as (_ & _ & HEvent & _ & _ & _ & HPages & _ & HDelete).
  split; [apply HEvent|]. split; [apply HPages|]. apply HDelete. reflexivity.
Defined.

(** Creating and deleting the handle 3 on a fresh module. *)
Lemma Instance_New_then_Delete_witness :
  Module__Get _ _ _ _ (fresh_world Z Z Z Z) = Some Module__Module /\
  demo_CreateInstance
    (trace _ _ _ _
       (enter Z Z Z Z (Call_CreateInstance Z Z Z Z 3%Z) Module__Module
          (fresh_world Z Z Z Z)))
  = Some 9%positive /\
  Module__Get _ _ _ _
    (Instance_Delete Z Z Z Z 3%Z
       (snd (Instance_New Z Z Z Z demo_CreateInstance 3%Z (fresh_world Z Z Z Z))))
  = Module__Get _ _ _ _ (fresh_world Z Z Z Z).
Proof.
  split; [reflexivity|]. split; [reflexivity|].
  apply (Instance_New_then_Delete Z Z Z Z demo_CreateInstance 3%Z
           (fresh_world Z Z Z Z) Module__Module 9%positive eq_refl eq_refl).
  reflexivity.
Defined.

(** [Instance_New] on the handle 7, already bound to the object 5. *)
Lemma Instance_New_rebinds_without_destroying_witness :
  Module__Get _ _ _ _ (starting_world Z Z Z Z (Some demo_module)) = Some demo_module /\
  current_instances_ demo_module !! 7%Z = Some (Some 5%positive) /\
  demo_CreateInstance
    (trace _ _ _ _
       (enter Z Z Z Z (Call_CreateInstance Z Z Z Z 7%Z) demo_module
          (starting_world Z Z Z Z (Some demo_module))))
  = Some 9%positive /\
  existsb (is_destroy Z Z Z Z)
    (events_since Z Z Z Z (starting_world Z Z Z Z (Some demo_module))
       (snd (Instance_New Z Z Z Z demo_CreateInstance 7%Z
               (starting_world Z Z Z Z (Some demo_module))))) = false.
Proof.
  split; [reflexivity|]. split; [reflexivity|]. split; [reflexivity|].
  destruct (Instance_New_rebinds_without_destroying Z Z Z Z demo_CreateInstance
              7%Z (starting_world Z Z Z Z (Some demo_module)) demo_module
              5%positive 9%positive eq_refl eq_refl eq_refl)
    as (m' & _ & _ & _ & _ & Hquiet).
  exact Hquiet.
Defined.

(** [Instance_New] on the handle 3 leaves the entry of the handle 7. *)
Lemma callbacks_touch_one_handle_witness :
  Module__Get _ _ _ _ (starting_world Z Z Z Z (Some demo_module)) = Some demo_module /\
  callback_handle Z Z Z Z (CB_Instance_New Z Z Z Z 3%Z) <> Some 7%Z /\
  exists m',
    Module__Get _ _ _ _
      (demo_invoke (CB_Instance_New Z Z Z Z 3%Z)
         (starting_world Z Z Z Z (Some demo_module))) = Some m' /\
    Module__InstanceForPPInstance m' 7%Z
    = Module__InstanceForPPInstance demo_module 7%Z.
Proof.
  assert (Hother : callback_handle Z Z Z Z (CB_Instance_New Z Z Z Z 3%Z) <> Some 7%Z)
    by discriminate.
  split; [reflexivity|]. split; [exact Hother|].
  destruct (callbacks_touch_one_handle Z Z Z Z Z demo_format 0%Z 0%Z
              demo_CreateInstance demo_QuerySupportedPrintOutputFormats
              demo_true demo_true demo_true demo_GetInstanceObject
              demo_PrintBegin demo_PrintPages (CB_Instance_New Z Z Z Z 3%Z)
              (starting_world Z Z Z Z (Some demo_module)) demo_module 7%Z
              eq_refl Hother)
    as (m' & Hget & _ & Hlookup).
  exists m'. split; [exact Hget | exact Hlookup].
Defined.

(** A run on a module initialised with module handle 21. *)
Lemma run_keeps_module_fields_witness :
  Module__Get _ _ _ _
    (starting_world Z Z Z Z (Some (set_pp_module_ 21%Z demo_module)))
  = Some (set_pp_module_ 21%Z demo_module) /\
  exists m',
    Module__Get _ _ _ _
      (demo_run [CB_Instance_New Z Z Z Z 3%Z; CB_Instance_Delete Z Z Z Z 7%Z]
         (starting_world Z Z Z Z (Some (set_pp_module_ 21%Z demo_module))))
    = Some m' /\
    pp_module_ m' = 21%Z.
Proof.
  split; [reflexivity|].
  destruct (run_keeps_module_fields Z Z Z Z Z demo_format 0%Z 0%Z
              demo_CreateInstance demo_QuerySupportedPrintOutputFormats
              demo_true demo_true demo_true demo_GetInstanceObject
              demo_PrintBegin demo_PrintPages
              [CB_Instance_New Z Z Z Z 3%Z; CB_Instance_Delete Z Z Z Z 7%Z]
              (starting_world Z Z Z Z (Some (set_pp_module_ 21%Z demo_module)))
              (set_pp_module_ 21%Z demo_module) eq_refl)
    as (m' & Hget & Hp & _).
  exists m'. split; [exact Hget | exact Hp].
Defined.

(** The destructor run of the run "new 3, delete 3": the fourth event. *)
Lemma destroyed_objects_were_registered_witness :
  trace _ _ _ _
    (demo_run [CB_Instance_New Z Z Z Z 3%Z; CB_Instance_Delete Z Z Z Z 3%Z]
       (fresh_world Z Z Z Z)) !! 3
  = Some (Called Z Z Z Z (Call_delete Z Z Z Z 9%positive) Module__Module) /\
  exists h p k,
    3 = S p /\
    trace _ _ _ _
      (demo_run [CB_Instance_New Z Z Z Z 3%Z; CB_Instance_Delete Z Z Z Z 3%Z]
         (fresh_world Z Z Z Z)) !! p
    = Some (Erased Z Z Z Z h) /\
    most_recently_stored Z Z Z Z
      (take p
         (trace _ _ _ _
            (demo_run [CB_Instance_New Z Z Z Z 3%Z; CB_Instance_Delete Z Z Z Z 3%Z]
               (fresh_world Z Z Z Z)))) h
    = Some 9%positive /\
    k < p /\
    trace _ _ _ _
      (demo_run [CB_Instance_New Z Z Z Z 3%Z; CB_Instance_Delete Z Z Z Z 3%Z]
         (fresh_world Z Z Z Z)) !! k
    = Some (Stored Z Z Z Z h (Some 9%positive)) /\
    Module__InstanceForPPInstance Module__Module h = None.
Proof.
  split; [reflexivity|].
  exact (destroyed_objects_were_registered Z Z Z Z Z demo_format 0%Z 0%Z
           demo_CreateInstance demo_QuerySupportedPrintOutputFormats
           demo_true demo_true demo_true demo_GetInstanceObject
           demo_PrintBegin demo_PrintPages
           [CB_Instance_New Z Z Z Z 3%Z; CB_Instance_Delete Z Z Z Z 3%Z]
           3 9%positive Module__Module eq_refl).
Defined.

(** The lookup of the handle 3 after "new 3, delete 3, an event for 3,
    new 3" on a fresh module. *)
Lemma InstanceForPPInstance_most_recent_witness :
  Module__Get _ _ _ _ (fresh_world Z Z Z Z) = Some Module__Module /\
  exists m,
    Module__Get _ _ _ _
      (demo_run [CB_Instance_New Z Z Z Z 3%Z; CB_Instance_Delete Z Z Z Z 3%Z;
                 CB_Instance_HandleEvent Z Z Z Z 3%Z 0%Z;
                 CB_Instance_New Z Z Z Z 3%Z]
         (fresh_world Z Z Z Z)) = Some m /\
    Module__InstanceForPPInstance m 3%Z = Some 9%positive.
Proof.
  split; [reflexivity|].
  destruct (InstanceForPPInstance_most_recent Z Z Z Z Z demo_format 0%Z 0%Z
              demo_CreateInstance demo_QuerySupportedPrintOutputFormats
              demo_true demo_true demo_true demo_GetInstanceObject
              demo_PrintBegin demo_PrintPages
              [CB_Instance_New Z Z Z Z 3%Z; CB_Instance_Delete Z Z Z Z 3%Z;
               CB_Instance_HandleEvent Z Z Z Z 3%Z 0%Z;
               CB_Instance_New Z Z Z Z 3%Z]
              (fresh_world Z Z Z Z) Module__Module 3%Z eq_refl)
    as (m & Hget & Hlookup & _).
  exists m. split; [exact Hget | exact Hlookup].
Defined.

